(** * openclaw-voice-channel: a shallow embedding of the transcription
      gateway, the batch-worker pipeline and the ingest routers.

    The Python sources are embedded function by function.  Python values
    that travel as JSON (segment dicts, job inputs, session metadata) are a
    [json] tree whose objects are finite maps; Python floats are the
    kernel's binary64 floats, so every threshold comparison is computed
    with the rounding the interpreter uses; Python [str] is a list of code
    points.  Code that can raise returns a [result]; code that talks to a
    collaborator (the ASR gateway, the language identifier, the job store,
    the session directory) threads an explicit world and takes the
    collaborator as a section variable. *)

From Stdlib Require Import ZArith NArith List String Ascii Bool Floats Uint63 Lia Sorted.
From stdpp Require Import gmap strings list fin_maps.

Set Warnings "-register-all,-inexact-float".
#[local] Open Scope Z_scope.

(* ===================================================================== *)
(** ** Python values *)
(* ===================================================================== *)

Module Py.

(** A Python [str]: its code points. *)
Abbreviation pystr := (list N).

(** Source literals are written as Rocq strings (UTF-8 bytes) and decoded
    to code points. *)
Fixpoint utf8_decode (bs : list N) : list N :=
  match bs with
  | [] => []
  | b0 :: r0 =>
      if (b0 <? 128)%N then b0 :: utf8_decode r0
      else if (b0 <? 224)%N then
        match r0 with
        | b1 :: r1 => ((b0 - 192) * 64 + (b1 - 128))%N :: utf8_decode r1
        | _ => []
        end
      else if (b0 <? 240)%N then
        match r0 with
        | b1 :: b2 :: r2 =>
            ((b0 - 224) * 4096 + (b1 - 128) * 64 + (b2 - 128))%N :: utf8_decode r2
        | _ => []
        end
      else
        match r0 with
        | b1 :: b2 :: b3 :: r3 =>
            ((b0 - 240) * 262144 + (b1 - 128) * 4096 + (b2 - 128) * 64 + (b3 - 128))%N
              :: utf8_decode r3
        | _ => []
        end
  end.

Definition py (s : string) : pystr :=
  utf8_decode (map (fun a => N_of_ascii a) (list_ascii_of_string s)).

(** Exceptions the embedded code can raise or catch. *)
Inductive exn :=
| TypeError
| AttributeError
| KeyError
| IndexError
| ValueError
| RuntimeError
| LangDetectException
| HTTPStatusError
| TransportError
| HTTPException (status : Z) (detail : pystr)
| OtherError.

Inductive result (A : Type) :=
| Ok (a : A)
| Raise (e : exn).
Arguments Ok {A} a.
Arguments Raise {A} e.

Definition bindR {A B} (m : result A) (k : A -> result B) : result B :=
  match m with
  | Ok a => k a
  | Raise e => Raise e
  end.

Definition is_ok {A} (m : result A) : bool :=
  match m with Ok _ => true | Raise _ => false end.

Fixpoint mapR {A B} (f : A -> result B) (l : list A) : result (list B) :=
  match l with
  | [] => Ok []
  | a :: l' =>
      bindR (f a) (fun b => bindR (mapR f l') (fun bs => Ok (b :: bs)))
  end.

(** JSON-shaped Python values.  [JInt] and [JFloat] are Python's [int] and
    [float]; [JObj] is a [dict] with string keys. *)
Inductive json :=
| JNull
| JBool (b : bool)
| JInt (z : Z)
| JFloat (f : float)
| JStr (s : pystr)
| JArr (l : list json)
| JObj (m : gmap string json).

Abbreviation pydict := (gmap string json).

(** Truthiness, as [if v:] and [not v] test it. *)
Definition truthy (v : json) : bool :=
  match v with
  | JNull => false
  | JBool b => b
  | JInt z => negb (z =? 0)
  | JFloat f => negb (PrimFloat.eqb f 0%float)
  | JStr s => match s with [] => false | _ => true end
  | JArr l => match l with [] => false | _ => true end
  | JObj m => negb (Nat.eqb (size m) 0)
  end.

(** [d.get(k, dflt)] on a dict. *)
Definition get (d : pydict) (k : string) (dflt : json) : json :=
  default dflt (d !! k).

(** [v.get(k, dflt)] on an arbitrary value: only a dict has the method. *)
Definition obj_get (v : json) (k : string) (dflt : json) : result json :=
  match v with
  | JObj m => Ok (get m k dflt)
  | _ => Raise AttributeError
  end.

(** [{**a, **b}]: the keys of [b] win. *)
Definition merge (a b : pydict) : pydict := b ∪ a.

(** Iterating a value with [for x in v]. *)
Definition iter (v : json) : result (list json) :=
  match v with
  | JArr l => Ok l
  | JStr s => Ok (map (fun c => JStr [c]) s)
  | JObj m => Ok (map (fun kv => JStr (py (fst kv))) (map_to_list m))
  | _ => Raise TypeError
  end.

(** *** Numbers *)

(** [int -> float].  Exact up to 2^53 in magnitude; beyond that the value
    saturates, which keeps every comparison against the constants of this
    program (all below 3 in magnitude) as the interpreter decides it. *)
Definition Z_to_float (z : Z) : float :=
  let a := Z.abs z in
  let m := if a <? 9007199254740992 then a else 9007199254740992 in
  let f := PrimFloat.of_uint63 (Uint63.of_Z m) in
  if z <? 0 then PrimFloat.opp f else f.

Definition nat_to_float (n : nat) : float := Z_to_float (Z.of_nat n).

(** The operand of an arithmetic comparison with a float: [bool] is an
    [int]; anything that is not a number raises [TypeError]. *)
Definition num (v : json) : result float :=
  match v with
  | JBool b => Ok (if b then 1%float else 0%float)
  | JInt z => Ok (Z_to_float z)
  | JFloat f => Ok f
  | _ => Raise TypeError
  end.

Definition is_num (v : json) : bool := is_ok (num v).

(** [a + b] on numbers. *)
Definition add (a b : json) : result json :=
  match a, b with
  | JInt x, JInt y => Ok (JInt (x + y))
  | JInt x, JBool y => Ok (JInt (x + Z.b2z y))
  | JBool x, JInt y => Ok (JInt (Z.b2z x + y))
  | JBool x, JBool y => Ok (JInt (Z.b2z x + Z.b2z y))
  | _, _ =>
      bindR (num a) (fun x => bindR (num b) (fun y => Ok (JFloat (PrimFloat.add x y))))
  end.

(** [a < b] on numbers. *)
Definition lt (a b : json) : result bool :=
  match a, b with
  | JInt x, JInt y => Ok (x <? y)
  | _, _ => bindR (num a) (fun x => bindR (num b) (fun y => Ok (PrimFloat.ltb x y)))
  end.

(** [sum(l)]: a left fold of [+] from the int 0. *)
Definition sum (l : list json) : result json :=
  fold_left (fun acc v => bindR acc (fun a => add a v)) l (Ok (JInt 0)).

(** [min(l)] on a non-empty list: the first least element. *)
Definition min (l : list json) : result json :=
  match l with
  | [] => Raise ValueError
  | v :: l' =>
      fold_left
        (fun acc x =>
           bindR acc (fun m => bindR (lt x m) (fun b => Ok (if b then x else m))))
        l' (Ok v)
  end.

(** [round(x, nd)] on a float: the exact binary value is rounded to [nd]
    decimals, ties to even, and the decimal result is read back as the
    nearest float. *)
Definition round_half_even (num den : Z) : Z :=
  let q := num / den in
  let r := num mod den in
  match (2 * r ?= den) with
  | Lt => q
  | Gt => q + 1
  | Eq => if Z.even q then q else q + 1
  end.

Definition round_float (x : float) (nd : nat) : float :=
  match Prim2SF x with
  | S754_finite s m e =>
      if 0 <=? e then x
      else
        let p := 10 ^ Z.of_nat nd in
        let n := round_half_even (Z.pos m * p) (2 ^ (- e)) in
        match n with
        | Z.pos n' =>
            SF2Prim (SFdiv prec emax (S754_finite s n' 0)
                       (S754_finite false (Z.to_pos p) 0))
        | _ => if s then (-0)%float else 0%float
        end
  | _ => x
  end.

(** [round(v, nd)] on a value: an [int] is returned unchanged. *)
Definition round (v : json) (nd : nat) : result json :=
  match v with
  | JFloat f => Ok (JFloat (round_float f nd))
  | JInt z => Ok (JInt z)
  | JBool b => Ok (JInt (Z.b2z b))
  | _ => Raise TypeError
  end.

(** *** Strings *)

(** [str.isspace] for one code point. *)
Definition isspace (c : N) : bool :=
  ((9 <=? c) && (c <=? 13) || (28 <=? c) && (c <=? 32)
   || (c =? 133) || (c =? 160) || (c =? 5760)
   || (8192 <=? c) && (c <=? 8202)
   || (c =? 8232) || (c =? 8233) || (c =? 8239) || (c =? 8287) || (c =? 12288))%N.

Fixpoint lstrip (s : pystr) : pystr :=
  match s with
  | c :: s' => if isspace c then lstrip s' else s
  | [] => []
  end.

Definition strip (s : pystr) : pystr := rev (lstrip (rev (lstrip s))).

(** [s / n] with [n = len(...)], a positive [int]: true division. *)
Definition truediv_len (s : json) (n : nat) : result json :=
  bindR (num s) (fun x => Ok (JFloat (PrimFloat.div x (nat_to_float n)))).

Fixpoint filterR {A} (f : A -> result bool) (l : list A) : result (list A) :=
  match l with
  | [] => Ok []
  | a :: l' =>
      bindR (f a) (fun b =>
      bindR (filterR f l') (fun r => Ok (if b then a :: r else r)))
  end.

End Py.

Export Py.

Declare Scope py_scope.
Notation "'let?' x ':=' m 'in' k" := (bindR m (fun x => k))
  (at level 10, x name, m at level 100, k at level 200) : py_scope.
#[local] Open Scope py_scope.
#[local] Open Scope string_scope.
#[local] Open Scope list_scope.

(* ===================================================================== *)
(** ** batch_worker/pipeline/confidence.py *)
(* ===================================================================== *)

Module Confidence.

(** [w.get("probability", 1.0)] *)
Definition word_probability (w : json) : result json :=
  obj_get w "probability" (JFloat 1.0).

(** [w.get("probability", 1.0) < 0.3] *)
Definition word_is_low (w : json) : result bool :=
  let? p := word_probability w in lt p (JFloat 0.3).

(** [sum(1 for w in words if w.get("probability", 1.0) < 0.3)] *)
Definition count_low (ws : list json) : result nat :=
  fold_left
    (fun acc w => let? n := acc in let? b := word_is_low w in Ok (if b then S n else n))
    ws (Ok 0%nat).

(** [low / len(words) > 0.3] *)
Definition ratio_exceeds (low len : nat) : bool :=
  PrimFloat.ltb 0.3 (PrimFloat.div (nat_to_float low) (nat_to_float len)).

Definition _is_low_confidence_dict (seg : pydict) : result bool :=
  let? a := lt (get seg "avg_logprob" (JInt 0)) (JFloat (-1.0)) in
  if a then Ok true else
  let? c := lt (JFloat 2.4) (get seg "compression_ratio" (JInt 0)) in
  if c then Ok true else
  let? n := lt (JFloat 0.6) (get seg "no_speech_prob" (JInt 0)) in
  if n then Ok true else
  let words := get seg "words" (JArr []) in
  if truthy words then
    let? ws := iter words in
    let? low := count_low ws in
    Ok (ratio_exceeds low (length ws))
  else Ok false.

(** The body of the loop of [evaluate_confidence]: the dict is updated in
    place, here a new map is returned. *)
Definition evaluate_segment (seg : pydict) : result pydict :=
  let? lc := _is_low_confidence_dict seg in
  let seg := <["low_confidence" := JBool lc]> seg in
  let words := get seg "words" (JArr []) in
  if truthy words then
    let? ws := iter words in
    let? probs := mapR word_probability ws in
    let? s := sum probs in
    let? q := truediv_len s (length probs) in
    let? avg := round q 4 in
    let? m := min probs in
    let? mn := round m 4 in
    let? lows := filterR word_is_low ws in
    Ok (<["low_confidence_words" := JArr lows]>
          (<["word_confidence_min" := mn]>
             (<["word_confidence_avg" := avg]> seg)))
  else
    Ok (<["low_confidence_words" := JArr []]>
          (<["word_confidence_min" := JNull]>
             (<["word_confidence_avg" := JNull]> seg))).

Definition evaluate_confidence (segments : list pydict) : result (list pydict) :=
  mapR evaluate_segment segments.

End Confidence.

(* ===================================================================== *)
(** ** api_server.py: the gateway's confidence heuristic *)
(* ===================================================================== *)

Module ApiServer.

(** A word and a segment as faster-whisper returns them (objects with
    float attributes). *)
Record Word := {
  w_start : float;
  w_end : float;
  w_word : pystr;
  w_probability : float;
}.

Record Segment := {
  seg_start : float;
  seg_end : float;
  seg_text : pystr;
  seg_words : option (list Word);
  seg_avg_logprob : float;
  seg_compression_ratio : float;
  seg_no_speech_prob : float;
}.

Definition words_of (s : Segment) : list Word := default [] (seg_words s).

Definition _is_low_confidence (segment : Segment) : bool :=
  if PrimFloat.ltb (seg_avg_logprob segment) (-1.0) then true
  else if PrimFloat.ltb 2.4 (seg_compression_ratio segment) then true
  else if PrimFloat.ltb 0.6 (seg_no_speech_prob segment) then true
  else
    match words_of segment with
    | [] => false
    | ws =>
        let low :=
          length (List.filter (fun w => PrimFloat.ltb (w_probability w) 0.3) ws) in
        Confidence.ratio_exceeds low (length ws)
    end.

(** [v is not None and v < c] / [v is not None and v > c] *)
Definition present_lt (v : option json) (c : float) : result bool :=
  match v with
  | None | Some JNull => Ok false
  | Some x => lt x (JFloat c)
  end.

Definition present_gt (v : option json) (c : float) : result bool :=
  match v with
  | None | Some JNull => Ok false
  | Some x => lt (JFloat c) x
  end.

Definition _is_low_confidence_dict (seg : pydict) : result bool :=
  let? a := present_lt (seg !! "avg_logprob") (-1.0) in
  if a then Ok true else
  let? c := present_gt (seg !! "compression_ratio") 2.4 in
  if c then Ok true else
  let? n := present_gt (seg !! "no_speech_prob") 0.6 in
  if n then Ok true else
  let words := get seg "words" (JArr []) in
  if truthy words then
    let? ws := iter words in
    let? low := Confidence.count_low ws in
    Ok (Confidence.ratio_exceeds low (length ws))
  else Ok false.

(** [_format_segment] *)
Definition format_word (w : Word) : json :=
  JObj (<["start" := JFloat (round_float (w_start w) 3)]>
        (<["end" := JFloat (round_float (w_end w) 3)]>
         (<["word" := JStr (w_word w)]>
          (<["probability" := JFloat (round_float (w_probability w) 4)]> ∅)))).

Definition _format_segment (segment : Segment) : pydict :=
  <["start" := JFloat (round_float (seg_start segment) 3)]>
  (<["end" := JFloat (round_float (seg_end segment) 3)]>
   (<["text" := JStr (strip (seg_text segment))]>
    (<["words" := JArr (map format_word (words_of segment))]>
     (<["avg_logprob" := JFloat (round_float (seg_avg_logprob segment) 4)]>
      (<["compression_ratio" := JFloat (round_float (seg_compression_ratio segment) 4)]>
       (<["no_speech_prob" := JFloat (round_float (seg_no_speech_prob segment) 4)]>
        (<["low_confidence" := JBool (_is_low_confidence segment)]> ∅))))))).

(** [RetryRequest] *)
Record RetryRequest := {
  audio_url : option pystr;
  audio_base64 : option pystr;
  start : float;
  end_ : float;
  beam_size : Z;
  model : pystr;
  language : pystr;
}.

(** [info] of [model.transcribe]. *)
Record TranscriptionInfo := {
  info_language : pystr;
  info_language_probability : float;
}.

(** [segment.end < request.start] and [segment.start > request.end] *)
Definition ends_before (request : RetryRequest) (segment : Segment) : bool :=
  PrimFloat.ltb (seg_end segment) (start request).

Definition starts_after (request : RetryRequest) (segment : Segment) : bool :=
  PrimFloat.ltb (end_ request) (seg_start segment).

(** The [for segment in segments_iter] loop of [transcribe_retry]. *)
Fixpoint window (request : RetryRequest) (segments_iter : list Segment) : list pydict :=
  match segments_iter with
  | [] => []
  | segment :: rest =>
      if ends_before request segment then window request rest
      else if starts_after request segment then []
      else _format_segment segment :: window request rest
  end.

Section Retry.
(** The collaborators of the endpoint: the model cache with the
    faster-whisper loader behind it, [base64.b64decode], and
    [model.transcribe] on the temporary file that holds the bytes. *)
Variable fw_model : Type.
Variable _get_fw_model : pystr -> result fw_model.
Variable b64decode : pystr -> result (list N).
Variable VAD_FILTER : bool.
Variable transcribe :
  fw_model -> list N -> pystr -> Z -> bool -> result (list Segment * TranscriptionInfo).

Definition transcribe_retry (request : RetryRequest) : result pydict :=
  match audio_base64 request with
  | None | Some [] => Raise (HTTPException 400 (py "audio_base64 kravs"))
  | Some audio =>
      let? model := _get_fw_model (model request) in
      let? audio_bytes := b64decode audio in
      let? r := transcribe model audio_bytes (language request) (beam_size request)
                  VAD_FILTER in
      let info := snd r in
      Ok (<["segments" := JArr (map JObj (window request (fst r)))]>
          (<["language" := JStr (info_language info)]>
           (<["language_probability" :=
                if truthy (JFloat (info_language_probability info))
                then JFloat (round_float (info_language_probability info) 4)
                else JNull]>
            (<["model" := JStr (ApiServer.model request)]>
             (<["beam_size" := JInt (beam_size request)]> ∅)))))
  end.
End Retry.

End ApiServer.

(* ===================================================================== *)
(** ** Python's [re] on the patterns of the repository *)
(* ===================================================================== *)

Module Re.

(** The tables of the interpreter's Unicode database that the patterns
    consult.  They are not part of the repository and differ between
    Python builds, so the matcher takes them as a parameter. *)
Record unicode_db := {
  uc_decimal : N -> bool;     (* category Nd: what [\d] matches *)
  uc_alnum : N -> bool;       (* [str.isalnum]: [\w] is this or an underscore *)
  uc_alpha : N -> bool;       (* [str.isalpha] *)
  uc_upper : N -> pystr;      (* [str.upper] of one character *)
  uc_ieq : N -> N -> bool;    (* equal under [re.IGNORECASE] *)
}.

(** An item of a character set. *)
Inductive citem :=
| CChar (c : N)
| CRange (lo hi : N)
| CDigit
| CSpace
| CWord.

(** The patterns of the repository only repeat single-character atoms,
    so repetition is attached to the character set. *)
Inductive regex :=
| REmpty
| RLit (ic : bool) (s : pystr)
| RSet (items : list citem) (lo : nat) (hi : option nat)
| RCat (r1 r2 : regex)
| RAlt (r1 r2 : regex)
| RBol
| REol
| RWordB.

Section Matcher.
Variable db : unicode_db.

Definition is_word (c : N) : bool := uc_alnum db c || (c =? 95)%N.

Definition citem_match (it : citem) (c : N) : bool :=
  match it with
  | CChar x => (c =? x)%N
  | CRange lo hi => ((lo <=? c) && (c <=? hi))%N
  | CDigit => uc_decimal db c
  | CSpace => isspace c
  | CWord => is_word c
  end.

Definition set_match (items : list citem) (c : N) : bool :=
  existsb (fun it => citem_match it c) items.

(** Length of the longest run of set members at the head of [s], at most
    [cap] long. *)
Fixpoint run (items : list citem) (cap : option nat) (s : pystr) : nat :=
  match s with
  | [] => 0
  | c :: s' =>
      match cap with
      | Some O => 0
      | _ =>
          if set_match items c
          then S (run items (pred <$> cap) s')
          else 0
      end
  end.

(** Greedy repetition: the longest run first, then shorter ones down to
    [lo] characters. *)
Fixpoint give_back (lo n i : nat) (k : nat -> option nat) : option nat :=
  if (n <? lo)%nat then None
  else
    match k (i + n)%nat with
    | Some e => Some e
    | None =>
        match n with
        | O => None
        | S n' => give_back lo n' i k
        end
    end.

Fixpoint lit_match (ic : bool) (s t : pystr) : bool :=
  match s, t with
  | [], _ => true
  | c :: s', d :: t' =>
      (if ic then uc_ieq db c d else (c =? d)%N) && lit_match ic s' t'
  | _ :: _, [] => false
  end.

Section Text.
Variable text : pystr.

Definition word_at (i : nat) : bool :=
  match text !! i with Some c => is_word c | None => false end.

Definition at_boundary (i : nat) : bool :=
  xorb (match i with O => false | S j => word_at j end) (word_at i).

Definition at_end (i : nat) : bool :=
  (i =? length text)%nat
  || ((S i =? length text)%nat
      && match text !! i with Some c => (c =? 10)%N | None => false end).

(** Backtracking matcher in continuation-passing style: [k] receives
    each candidate end position in priority order. *)
Fixpoint rmatch (r : regex) (i : nat) (k : nat -> option nat) : option nat :=
  match r with
  | REmpty => k i
  | RLit ic s =>
      if lit_match ic s (drop i text) then k (i + length s)%nat else None
  | RSet items lo hi => give_back lo (run items hi (drop i text)) i k
  | RCat r1 r2 => rmatch r1 i (fun j => rmatch r2 j k)
  | RAlt r1 r2 =>
      match rmatch r1 i k with
      | Some e => Some e
      | None => rmatch r2 i k
      end
  | RBol => if (i =? 0)%nat then k i else None
  | REol => if at_end i then k i else None
  | RWordB => if at_boundary i then k i else None
  end.

(** [pattern.match(text)]: the end of a match anchored at 0. *)
Definition match_ (r : regex) : option nat := rmatch r 0%nat Some.

(** [pattern.finditer(text)]: the spans of the leftmost non-overlapping
    matches. *)
Fixpoint finditer_from (fuel : nat) (r : regex) (i : nat) : list (nat * nat) :=
  match fuel with
  | O => []
  | S fuel' =>
      if (length text <? i)%nat then []
      else
        match rmatch r i Some with
        | Some e =>
            (i, e) :: finditer_from fuel' r (if (e =? i)%nat then S i else e)
        | None => finditer_from fuel' r (S i)
        end
  end.

Definition finditer (r : regex) : list (nat * nat) :=
  finditer_from (S (length text)) r 0%nat.

(** [text[a:b]] *)
Definition slice (a b : nat) : pystr := take (b - a) (drop a text).
End Text.
End Matcher.

(** The tables for the Basic Latin and Latin-1 Supplement blocks, the
    range of Swedish text; code points above U+00FF are treated as
    caseless symbols.  Used to run the model on concrete inputs. *)
Definition latin1_alpha (c : N) : bool :=
  ((65 <=? c) && (c <=? 90) || (97 <=? c) && (c <=? 122)
   || (c =? 170) || (c =? 181) || (c =? 186)
   || (192 <=? c) && (c <=? 214) || (216 <=? c) && (c <=? 246)
   || (248 <=? c) && (c <=? 255))%N.

Definition latin1_decimal (c : N) : bool := ((48 <=? c) && (c <=? 57))%N.

Definition latin1_alnum (c : N) : bool :=
  (latin1_alpha c || latin1_decimal c
   || (c =? 178) || (c =? 179) || (c =? 185)
   || (c =? 188) || (c =? 189) || (c =? 190))%N.

Definition latin1_upper (c : N) : pystr :=
  (if (97 <=? c) && (c <=? 122) then [c - 32]
   else if c =? 181 then [924]
   else if c =? 223 then [83; 83]
   else if (224 <=? c) && (c <=? 254) && negb (c =? 247) then [c - 32]
   else if c =? 255 then [376]
   else [c])%N.

Definition latin1_lower (c : N) : N :=
  (if (65 <=? c) && (c <=? 90) then c + 32
   else if (192 <=? c) && (c <=? 222) && negb (c =? 215) then c + 32
   else c)%N.

Definition latin1 : unicode_db := {|
  uc_decimal := latin1_decimal;
  uc_alnum := latin1_alnum;
  uc_alpha := latin1_alpha;
  uc_upper := latin1_upper;
  uc_ieq := fun a b => (latin1_lower a =? latin1_lower b)%N;
|}.

End Re.

(** A character of a source literal. *)
Definition chr (s : string) : N :=
  match py s with
  | c :: _ => c
  | [] => 0%N
  end.

(** The receiver of a [str] method, or the subject of a pattern: anything
    but a [str] raises. *)
Definition as_str (e : exn) (v : json) : result pystr :=
  match v with
  | JStr s => Ok s
  | _ => Raise e
  end.

(* ===================================================================== *)
(** ** batch_worker/pipeline/pii_flagging.py *)
(* ===================================================================== *)

Module PiiFlagging.
Import Re.

Definition digits (lo : nat) (hi : option nat) : regex := RSet [CDigit] lo hi.
Definition one (items : list citem) : regex := RSet items 1 (Some 1%nat).
Definition opt (items : list citem) : regex := RSet items 0 (Some 1%nat).

(** [\d{6,8}[-\s]?\d{4}] *)
Definition personnummer : regex :=
  RCat (digits 6 (Some 8%nat))
    (RCat (opt [CChar (chr "-"); CSpace]) (digits 4 (Some 4%nat))).

(** [[a-zA-Z0-9._%+-]+@[a-zA-Z0-9.-]+\.[a-zA-Z]{2,}] *)
Definition email : regex :=
  let az := CRange (chr "a") (chr "z") in
  let AZ := CRange (chr "A") (chr "Z") in
  let d09 := CRange (chr "0") (chr "9") in
  RCat (RSet [az; AZ; d09; CChar (chr "."); CChar (chr "_"); CChar (chr "%");
              CChar (chr "+"); CChar (chr "-")] 1 None)
    (RCat (RLit false (py "@"))
       (RCat (RSet [az; AZ; d09; CChar (chr "."); CChar (chr "-")] 1 None)
          (RCat (RLit false (py ".")) (RSet [az; AZ] 2 None)))).

(** [(?:\+46|0)\s*[1-9]\d{0,2}[\s-]?\d{2,3}[\s-]?\d{2}[\s-]?\d{2}] *)
Definition telefon : regex :=
  let sep := opt [CSpace; CChar (chr "-")] in
  RCat (RAlt (RLit false (py "+46")) (RLit false (py "0")))
    (RCat (RSet [CSpace] 0 None)
       (RCat (one [CRange (chr "1") (chr "9")])
          (RCat (digits 0 (Some 2%nat))
             (RCat sep
                (RCat (digits 2 (Some 3%nat))
                   (RCat sep
                      (RCat (digits 2 (Some 2%nat))
                         (RCat sep (digits 2 (Some 2%nat)))))))))).

(** [_PATTERNS], in insertion order. *)
Definition _PATTERNS : list (string * regex) :=
  [("personnummer", personnummer); ("email", email); ("telefon", telefon)].

(** [_PROFANITY_WORDS].  The source holds them in a set, whose iteration
    order is not fixed; the order below is the one of the source text.  No
    word is matched at a position where another one is, because the
    pattern closes with a word boundary, so the order does not change the
    matches. *)
Definition _PROFANITY_WORDS : list pystr :=
  map py ["fan"; "jävla"; "jävlar"; "helvete"; "skit"; "skita";
          "förbannad"; "förbannade"; "satan"; "satans";
          "jävel"; "jävligt"; "faen"; "fy fan"].

Fixpoint alternatives (ws : list pystr) : regex :=
  match ws with
  | [] => RSet [] 1 (Some 1%nat)
  | [w] => RLit true w
  | w :: ws' => RAlt (RLit true w) (alternatives ws')
  end.

(** [\b(w1|w2|...)\b] under [re.IGNORECASE] *)
Definition _PROFANITY_PATTERN : regex :=
  RCat RWordB (RCat (alternatives _PROFANITY_WORDS) RWordB).

Section Scan.
Variable db : unicode_db.

(** One entry of [pii_flags]. *)
Definition flag (pii_type : string) (text : pystr) (span : nat * nat) : json :=
  JObj (<["type" := JStr (py pii_type)]>
        (<["start_char" := JInt (Z.of_nat (fst span))]>
         (<["end_char" := JInt (Z.of_nat (snd span))]>
          (<["text" := JStr (slice text (fst span) (snd span))]> ∅)))).

Definition hits (pii_type : string) (pattern : regex) (text : pystr) : list json :=
  map (flag pii_type text) (finditer db text pattern).

(** The list [flags] that the loop body builds for [text]. *)
Definition scan (text : pystr) : list json :=
  flat_map (fun tp => hits (fst tp) (snd tp) text) _PATTERNS
    ++ hits "profanity" _PROFANITY_PATTERN text.

(** [seg.get("text", "") or seg.get("processed_text", "")] *)
Definition scanned (seg : pydict) : json :=
  let t := get seg "text" (JStr []) in
  if truthy t then t else get seg "processed_text" (JStr []).

Definition flag_segment (seg : pydict) : result pydict :=
  let? text := as_str TypeError (scanned seg) in
  let flags := scan text in
  Ok (<["has_pii" := JBool (0 <? length flags)%nat]>
        (<["pii_flags" := JArr flags]> seg)).

Definition flag_pii (segments : list pydict) : result (list pydict) :=
  mapR flag_segment segments.
End Scan.

End PiiFlagging.

(* ===================================================================== *)
(** ** batch_worker/pipeline/text_processing.py *)
(* ===================================================================== *)

Module TextProcessing.
Import Re.

(** [text.replace(old, new)] for a one-character [old]. *)
Definition replace (old : N) (new : pystr) (text : pystr) : pystr :=
  flat_map (fun c => if (c =? old)%N then new else [c]) text.

Definition replacements : list (N * pystr) :=
  [(8216%N, py "'"); (8217%N, py "'"); (8220%N, [34%N]); (8221%N, [34%N]);
   (8211%N, py "-"); (8212%N, py "-"); (8230%N, py "..."); (160%N, py " ")].

Definition _normalize_punctuation (text : pystr) : pystr :=
  fold_left (fun t on => replace (fst on) (snd on) t) replacements text.

(** [(^|[.!?]\s+)(\w)] *)
Definition sentence_start : regex :=
  RCat (RAlt RBol
          (RCat (RSet [CChar (chr "."); CChar (chr "!"); CChar (chr "?")] 1 (Some 1%nat))
                (RSet [CSpace] 1 None)))
       (RSet [CWord] 1 (Some 1%nat)).

Section Casing.
Variable db : unicode_db.

(** [re.sub] with [m.group(1) + m.group(2).upper()]: group 2 is the last
    character of each match, the only one that changes. *)
Fixpoint upper_at_ends (text : pystr) (pos : nat) (spans : list (nat * nat)) : pystr :=
  match spans with
  | [] => drop pos text
  | (_, e) :: spans' =>
      slice text pos (e - 1)
        ++ match text !! (e - 1)%nat with
           | Some c => uc_upper db c
           | None => []
           end
        ++ upper_at_ends text e spans'
  end.

Definition _capitalize_sentences (text : pystr) : pystr :=
  let result := upper_at_ends text 0 (finditer db text sentence_start) in
  match result with
  | c :: rest => if uc_alpha db c then uc_upper db c ++ rest else result
  | [] => result
  end.

(** [text.split()] *)
Fixpoint split_ws (cur : pystr) (s : pystr) : list pystr :=
  match s with
  | [] => match cur with [] => [] | _ => [rev cur] end
  | c :: s' =>
      if isspace c
      then match cur with [] => split_ws [] s' | _ => rev cur :: split_ws [] s' end
      else split_ws (c :: cur) s'
  end.

Definition split (s : pystr) : list pystr := split_ws [] s.

(** [" ".join(l)] *)
Fixpoint join_sp (l : list pystr) : pystr :=
  match l with
  | [] => []
  | [w] => w
  | w :: l' => w ++ 32%N :: join_sp l'
  end.

(** [words.index(word)] for a word of the list. *)
Fixpoint index (word : pystr) (words : list pystr) : nat :=
  match words with
  | [] => 0
  | w :: ws => if bool_decide (w = word) then 0 else S (index word ws)
  end.

(** [lines[-1] = f"{lines[-1]} {extra}"] *)
Definition append_to_last (lines : list pystr) (extra : pystr) : list pystr :=
  match rev lines with
  | [] => lines
  | l :: before => rev before ++ [l ++ 32%N :: extra]
  end.

(** The [for word in words] loop; the result is [(lines, current_line)]. *)
Fixpoint subtitle_loop (all : list pystr) (max_chars max_lines : nat)
    (lines : list pystr) (current_line : pystr) (rest : list pystr)
    : list pystr * pystr :=
  match rest with
  | [] => (lines, current_line)
  | word :: rest' =>
      let test_line :=
        match current_line with
        | [] => word
        | _ => strip (current_line ++ 32%N :: word)
        end in
      if (length test_line <=? max_chars)%nat
      then subtitle_loop all max_chars max_lines lines test_line rest'
      else
        let lines := match current_line with [] => lines | _ => lines ++ [current_line] end in
        if (max_lines <=? length lines)%nat
        then
          let lines := append_to_last lines word in
          let remaining := join_sp (drop (S (index word all)) all) in
          (match remaining with [] => lines | _ => append_to_last lines remaining end, [])
        else subtitle_loop all max_chars max_lines lines word rest'
  end.

Definition _split_subtitle_lines (text : pystr) (max_chars max_lines : nat) : list pystr :=
  let words := split text in
  let '(lines, current_line) := subtitle_loop words max_chars max_lines [] [] words in
  let lines :=
    match current_line with
    | [] => lines
    | _ =>
        if (max_lines <=? length lines)%nat
        then append_to_last lines current_line
        else lines ++ [current_line]
    end in
  take max_lines lines.

Definition process_segment (casing_profile : pystr) (seg : pydict) : result pydict :=
  let? text := as_str TypeError (get seg "text" (JStr [])) in
  let text := _normalize_punctuation text in
  if bool_decide (casing_profile = py "meeting_notes") then
    Ok (<["processed_text" := JStr (_capitalize_sentences text)]> seg)
  else if bool_decide (casing_profile = py "subtitle_friendly") then
    let text := _capitalize_sentences text in
    Ok (<["processed_text" := JStr text]>
          (<["subtitle_lines" := JArr (map JStr (_split_subtitle_lines text 42 2))]> seg))
  else Ok (<["processed_text" := JStr text]> seg).

Definition process_text (segments : list pydict) (casing_profile : pystr)
    : result (list pydict) :=
  if bool_decide (casing_profile = py "verbatim") then Ok segments
  else mapR (process_segment casing_profile) segments.
End Casing.

End TextProcessing.

(* ===================================================================== *)
(** ** batch_worker/pipeline/language_detect.py *)
(* ===================================================================== *)

Module LanguageDetect.

Definition MIN_TEXT_LENGTH : nat := 10.

(** A candidate of the language identifier: [lang] and [prob]. *)
Record Language := {
  lang : pystr;
  prob : float;
}.

Section Detect.
(** [langdetect.detect_langs].  The library samples at random, so the
    answer may differ from call to call: the first argument counts the
    calls made before this one. *)
Variable detect_langs : nat -> pystr -> result (list Language).

Definition annotate (seg : pydict) (language : pystr) (confidence : float)
    (switch : bool) : pydict :=
  <["language_switch" := JBool switch]>
    (<["language_confidence" := JFloat confidence]>
       (<["detected_language" := JStr language]> seg)).

(** The loop body; the result carries the number of calls made so far. *)
Definition detect_segment (file_language : pystr) (calls : nat) (seg : pydict)
    : result (pydict * nat) :=
  let? raw := as_str AttributeError (get seg "text" (JStr [])) in
  let text := strip raw in
  if (length text <? MIN_TEXT_LENGTH)%nat
  then Ok (annotate seg file_language 1%float false, calls)
  else
    match detect_langs calls text with
    | Ok (best :: _) =>
        Ok (annotate seg (lang best) (round_float (prob best) 4)
              (negb (bool_decide (lang best = file_language))), S calls)
    | Ok [] => Ok (annotate seg file_language 0%float false, S calls)
    | Raise LangDetectException =>
        Ok (annotate seg file_language 0%float false, S calls)
    | Raise e => Raise e
    end.

Fixpoint detect_from (file_language : pystr) (calls : nat) (segments : list pydict)
    : result (list pydict * nat) :=
  match segments with
  | [] => Ok ([], calls)
  | seg :: rest =>
      let? r := detect_segment file_language calls seg in
      let? rs := detect_from file_language (snd r) rest in
      Ok (fst r :: fst rs, snd rs)
  end.

Definition detect_segment_languages (segments : list pydict) (file_language : pystr)
    : result (list pydict) :=
  let? r := detect_from file_language 0 segments in Ok (fst r).
End Detect.

End LanguageDetect.

(* ===================================================================== *)
(** ** batch_worker: configuration, context profiles, job store *)
(* ===================================================================== *)

Module Worker.

(** [PipelineConfig], with the transient attribute [_audio_base64] that
    the runner sets around the retry stage. *)
Record PipelineConfig := {
  retry_enabled : bool;
  retry_beam_size : Z;
  retry_with_large : bool;
  language_detect_enabled : bool;
  text_processing_enabled : bool;
  casing_profile : pystr;
  normalize_punctuation : bool;
  pii_flagging_enabled : bool;
  summary_enabled : bool;
  whisper_api_url : pystr;
  llm_url : pystr;
  llm_model : pystr;
  http_timeout : float;
  http_retries : Z;
  http_retry_backoff : float;
  max_concurrent_jobs : Z;
  diarization_enabled : bool;
  _audio_base64 : option pystr;
}.

Definition set_audio (config : PipelineConfig) (audio : option pystr) : PipelineConfig :=
  {| retry_enabled := retry_enabled config;
     retry_beam_size := retry_beam_size config;
     retry_with_large := retry_with_large config;
     language_detect_enabled := language_detect_enabled config;
     text_processing_enabled := text_processing_enabled config;
     casing_profile := casing_profile config;
     normalize_punctuation := normalize_punctuation config;
     pii_flagging_enabled := pii_flagging_enabled config;
     summary_enabled := summary_enabled config;
     whisper_api_url := whisper_api_url config;
     llm_url := llm_url config;
     llm_model := llm_model config;
     http_timeout := http_timeout config;
     http_retries := http_retries config;
     http_retry_backoff := http_retry_backoff config;
     max_concurrent_jobs := max_concurrent_jobs config;
     diarization_enabled := diarization_enabled config;
     _audio_base64 := audio |}.

(** The defaults of the dataclass. *)
Definition default_config : PipelineConfig :=
  {| retry_enabled := true;
     retry_beam_size := 10;
     retry_with_large := false;
     language_detect_enabled := true;
     text_processing_enabled := true;
     casing_profile := py "verbatim";
     normalize_punctuation := true;
     pii_flagging_enabled := true;
     summary_enabled := false;
     whisper_api_url := py "http://localhost:8123";
     llm_url := [];
     llm_model := [];
     http_timeout := 60%float;
     http_retries := 3;
     http_retry_backoff := 1%float;
     max_concurrent_jobs := 1;
     diarization_enabled := false;
     _audio_base64 := None |}.

(** [JobSubmitRequest.model_dump()]: the input of a job. *)
Record JobInput := {
  segments : list pydict;
  language : pystr;
  audio_base64 : option pystr;
  audio_path : option pystr;
  session_id : option pystr;
  context_profile : option pystr;
}.

(** *** context_profiles.py *)

(** The prompt templates are read by the summary stage only.  Their text
    is abbreviated here to the opening sentence and the [{text}]
    placeholder. *)
Definition prompt_for (subject : string) : json :=
  JStr (py "Du ar en assistent som sammanfattar " ++ py subject
        ++ py " pa svenska. Transkription: {text}").

Definition profile_entry (label description : string) (summary pii diarization
    text_processing : bool) (prompt : option json) (casing : option string) : pydict :=
  let base : pydict :=
    <["label" := JStr (py label)]>
    (<["description" := JStr (py description)]>
     (<["summary" := JBool summary]>
      (<["pii" := JBool pii]>
       (<["diarization" := JBool diarization]>
        (<["text_processing" := JBool text_processing]> ∅))))) in
  let with_prompt := match prompt with Some p => <["prompt" := p]> base | None => base end in
  match casing with
  | Some c => <["casing" := JStr (py c)]> with_prompt
  | None => with_prompt
  end.

Definition CONTEXT_PROFILES : gmap pystr pydict :=
  <[py "raw" := profile_entry "Ratt transkript"
       "Ingen efterbearbetning, ratt text fran ASR" false false false false None None]>
  (<[py "meeting" := profile_entry "Mote" "Motesanteckningar med beslut och actions"
       true true true true (Some (prompt_for "motesanteckningar")) (Some "meeting_notes")]>
   (<[py "brainstorm" := profile_entry "Brainstorm"
        "Lista och gruppera ideer fran brainstorming"
        true false false true (Some (prompt_for "brainstorming-sessioner"))
        (Some "meeting_notes")]>
    (<[py "journal" := profile_entry "Dagbok" "Dagboksanteckningar och reflektioner"
         true true false true (Some (prompt_for "dagboksanteckningar"))
         (Some "meeting_notes")]>
     (<[py "tech_notes" := profile_entry "Tekniska anteckningar"
          "Teknisk dokumentation, bevara facktermer"
          true false false false (Some (prompt_for "tekniska anteckningar"))
          (Some "verbatim")]> ∅)))).

Definition get_profile (name : pystr) : option pydict := CONTEXT_PROFILES !! name.

(** *** The state the worker writes: the jobs table and the sessions tree *)

(** A row of [jobs], without the columns no code here reads back. *)
Record JobRow := {
  status : pystr;
  current_step : pystr;
  result_data : option pydict;
  error : pystr;
  updated_at : pystr;
}.

(** What a poller of the job API or a reader of the sessions directory can
    see at one instant. *)
Record Store := {
  jobs : gmap pystr JobRow;
  dirs : gset pystr;
  files : gmap pystr json;
  read_only : gset pystr;        (* paths that cannot be opened for writing *)
}.

(** The world of one pipeline run: the store, every state the store went
    through (oldest first), the bodies POSTed to the gateway (oldest
    first) and the number of clock readings. *)
Record World := {
  store : Store;
  seen : list Store;
  posts : list json;
  ticks : nat;
}.

Definition M (A : Type) : Type := World -> result A * World.

Definition ret {A} (a : A) : M A := fun w => (Ok a, w).

Definition bindM {A B} (m : M A) (k : A -> M B) : M B :=
  fun w =>
    match m w with
    | (Ok a, w') => k a w'
    | (Raise e, w') => (Raise e, w')
    end.

Definition lift {A} (r : result A) : M A := fun w => (r, w).

(** [try: m  except Exception as e: h e] *)
Definition try_except {A} (m : M A) (h : exn -> M A) : M A :=
  fun w =>
    match m w with
    | (Ok a, w') => (Ok a, w')
    | (Raise e, w') => h e w'
    end.

(** A write to the store: the new state becomes visible. *)
Definition commit (f : Store -> Store) : M unit :=
  fun w =>
    let s := f (store w) in
    (Ok tt, {| store := s; seen := seen w ++ [s]; posts := posts w; ticks := ticks w |}).

Definition read {A} (f : Store -> A) : M A := fun w => (Ok (f (store w)), w).

End Worker.

Notation "'let!' x ':=' m 'in' k" := (Worker.bindM m (fun x => k))
  (at level 10, x name, m at level 100, k at level 200) : py_scope.
Notation "'run!' m 'in' k" := (Worker.bindM m (fun _ => k))
  (at level 10, m at level 100, k at level 200) : py_scope.

(* ===================================================================== *)
(** ** batch_worker/db.py, pipeline/retry_transcribe.py, pipeline/runner.py *)
(* ===================================================================== *)

Module Pipeline.
Import Worker.

(** What one [client.post] followed by [raise_for_status] comes to. *)
Inductive PostOutcome :=
| Responded (body : option json)   (* a 2xx answer; [None]: the body is not JSON *)
| StatusError                      (* [httpx.HTTPStatusError] *)
| Transport                        (* [httpx.TransportError] *)
| Failed.                          (* any other exception *)

(** The collaborators of the worker.  [post] sees the bodies sent before,
    so a gateway may answer the same request differently over time.
    [diarize] and [generate_summary] are the two stages that no statement
    below is about; they call pyannote and the LLM endpoint. *)
Record Env := {
  db : Re.unicode_db;
  post : list json -> pystr -> json -> PostOutcome;
  detect_langs : nat -> pystr -> result (list LanguageDetect.Language);
  diarize : list pydict -> option pystr -> result (list pydict);
  generate_summary : list pydict -> PipelineConfig -> option json -> result json;
  utcnow : nat -> pystr;           (* the n-th reading of the clock, ISO formatted *)
  str_exn : exn -> pystr;          (* [str(e)] *)
  SESSIONS_DIR : pystr;            (* [_get_sessions_dir()] *)
}.

Section WithEnv.
Variable env : Env.

Definition now : M pystr :=
  fun w =>
    (Ok (utcnow env (ticks w)),
     {| store := store w; seen := seen w; posts := posts w; ticks := S (ticks w) |}).

(** *** db.py *)

(** [update_job]: an UPDATE of the row with this id, if there is one. *)
Definition update_row (now : pystr) (status current_step : option pystr)
    (result_data : option pydict) (error : option pystr) (row : JobRow) : JobRow :=
  {| status := default (Worker.status row) status;
     current_step := default (Worker.current_step row) current_step;
     result_data :=
       match result_data with Some r => Some r | None => Worker.result_data row end;
     error := default (Worker.error row) error;
     updated_at := now |}.

Definition update_job (job_id : pystr) (status current_step : option pystr)
    (result_data : option pydict) (error : option pystr) : M unit :=
  let! t := now in
  commit (fun s =>
    {| jobs := alter (update_row t status current_step result_data error) job_id (jobs s);
       dirs := dirs s; files := files s; read_only := read_only s |}).

(** *** retry_transcribe.py *)

Definition send (url : pystr) (body : json) : M PostOutcome :=
  fun w =>
    (Ok (post env (posts w) url body),
     {| store := store w; seen := seen w; posts := posts w ++ [body]; ticks := ticks w |}).

(** The [for attempt in range(config.http_retries)] loop; [last_exc] is
    the error of the latest failed attempt.  The pause between attempts
    changes nothing that is modelled. *)
Fixpoint attempts (n : nat) (url : pystr) (body : json) (last_exc : option exn)
    : M (option json) :=
  match n with
  | O =>
      match last_exc with
      | Some e => lift (Raise e)
      | None => lift (Raise TypeError)        (* [raise None] *)
      end
  | S n' =>
      let! r := send url body in
      match r with
      | Responded b => ret b
      | StatusError => attempts n' url body (Some HTTPStatusError)
      | Transport => attempts n' url body (Some TransportError)
      | Failed => lift (Raise OtherError)
      end
  end.

Definition _post_with_retries (url : pystr) (body : json) (config : PipelineConfig)
    : M (option json) :=
  attempts (Z.to_nat (http_retries config)) url body None.

Definition medium : pystr := py "KBLab/kb-whisper-medium".
Definition large : pystr := py "KBLab/kb-whisper-large".

(** [seg[k]] *)
Definition item (seg : pydict) (k : string) : result json :=
  match seg !! k with
  | Some v => Ok v
  | None => Raise KeyError
  end.

(** The JSON body of a retry request for [seg]. *)
Definition retry_body (audio_base64 : pystr) (seg : pydict) (config : PipelineConfig)
    (model : pystr) : result json :=
  let? start := item seg "start" in
  let? end_ := item seg "end" in
  Ok (JObj (<["audio_base64" := JStr audio_base64]>
            (<["start" := start]>
             (<["end" := end_]>
              (<["beam_size" := JInt (retry_beam_size config)]>
               (<["model" := JStr model]>
                (<["language" := get seg "language" (JStr (py "sv"))]> ∅))))))).

Definition retry_url (config : PipelineConfig) : pystr :=
  whisper_api_url config ++ py "/transcribe/retry".

(** [result.json()] followed by [retry_data.get("segments", [])] *)
Definition retry_segments (response : option json) : result json :=
  match response with
  | None => Raise ValueError
  | Some retry_data => obj_get retry_data "segments" (JArr [])
  end.

(** [retry_segments[0]] *)
Definition first (v : json) : result json :=
  match v with
  | JArr (x :: _) => Ok x
  | JArr [] => Raise IndexError
  | JStr (c :: _) => Ok (JStr [c])
  | JStr [] => Raise IndexError
  | JObj _ => Raise KeyError
  | _ => Raise TypeError
  end.

(** [{**seg, **best, "retried": True, "retry_model": name}] *)
Definition replaced (seg : pydict) (best : json) (name : string) : result pydict :=
  match best with
  | JObj b =>
      Ok (<["retry_model" := JStr (py name)]>
            (<["retried" := JBool true]> (merge seg b)))
  | _ => Raise TypeError
  end.

(** The two [try] blocks of the loop body.  Each yields the replacement
    of the segment, if it makes one. *)
Definition strategy_1 (audio_base64 : pystr) (seg : pydict) (config : PipelineConfig)
    : M (option pydict) :=
  try_except
    (let! body := lift (retry_body audio_base64 seg config medium) in
     let! result := _post_with_retries (retry_url config) body config in
     let! retry_segments := lift (retry_segments result) in
     if truthy retry_segments then
       let! best := lift (first retry_segments) in
       let! low := lift (obj_get best "low_confidence" (JBool true)) in
       if negb (truthy low) then
         let! new := lift (replaced seg best "medium") in ret (Some new)
       else ret None
     else ret None)
    (fun _ => ret None).

Definition strategy_2 (audio_base64 : pystr) (seg : pydict) (config : PipelineConfig)
    : M (option pydict) :=
  try_except
    (let! body := lift (retry_body audio_base64 seg config large) in
     let! result := _post_with_retries (retry_url config) body config in
     let! retry_segments := lift (retry_segments result) in
     if truthy retry_segments then
       let! best := lift (first retry_segments) in
       let! new := lift (replaced seg best "large") in ret (Some new)
     else ret None)
    (fun _ => ret None).

(** The body of [for idx, seg in low_segments]. *)
Definition retry_segment (audio_base64 : pystr) (config : PipelineConfig) (seg : pydict)
    : M (option pydict) :=
  let! a := strategy_1 audio_base64 seg config in
  match a with
  | Some new => ret (Some new)
  | None =>
      if retry_with_large config then strategy_2 audio_base64 seg config
      else ret None
  end.

(** [seg.get("low_confidence")] as a condition. *)
Definition marked_low (seg : pydict) : bool := truthy (get seg "low_confidence" JNull).

(** [[(i, seg) for i, seg in enumerate(segments) if seg.get("low_confidence")]] *)
Definition low_segments (segments : list pydict) : list (nat * pydict) :=
  List.filter (fun p => marked_low (snd p)) (imap (fun i seg => (i, seg)) segments).

Fixpoint retry_loop (audio_base64 : pystr) (config : PipelineConfig)
    (low : list (nat * pydict)) (segments : list pydict) : M (list pydict) :=
  match low with
  | [] => ret segments
  | (idx, seg) :: low' =>
      let! r := retry_segment audio_base64 config seg in
      retry_loop audio_base64 config low'
        (match r with Some new => <[idx := new]> segments | None => segments end)
  end.

Definition retry_low_confidence (segments : list pydict) (config : PipelineConfig)
    : M (list pydict) :=
  match _audio_base64 config with
  | None | Some [] => ret segments
  | Some audio_base64 =>
      match low_segments segments with
      | [] => ret segments
      | low => retry_loop audio_base64 config low segments
      end
  end.

(** *** runner.py *)

(** [os.path.join(a, b)] *)
Definition path_join (a b : pystr) : pystr :=
  if match b with c :: _ => (c =? 47)%N | [] => false end then b
  else
    match rev a with
    | [] => b
    | c :: _ => if (c =? 47)%N then a ++ b else a ++ 47%N :: b
    end.

Definition session_file (session_id filename : pystr) : pystr :=
  path_join (path_join (SESSIONS_DIR env) session_id) filename.

Definition put_file (path : pystr) (content : json) (s : Store) : Store :=
  {| jobs := jobs s; dirs := dirs s; files := <[path := content]> (files s);
     read_only := read_only s |}.

(** [_update_session_status]: every failure inside is logged and
    swallowed. *)
Definition _update_session_status (session_id status job_id : pystr)
    (error : option pystr) : M unit :=
  let meta_path := session_file session_id (py "session.json") in
  let! found := read (fun s => files s !! meta_path) in
  match found with
  | Some (JObj meta) =>
      let! t := now in
      let meta :=
        <["processed_at" := JStr t]>
          (<["processing_status" := JStr status]>
             (<["job_id" := JStr job_id]> meta)) in
      let meta :=
        match error with
        | Some (c :: e) => <["processing_error" := JStr (c :: e)]> meta
        | _ => meta
        end in
      let! locked := read (fun s => bool_decide (meta_path ∈ read_only s)) in
      if locked then ret tt else commit (put_file meta_path (JObj meta))
  | _ => ret tt
  end.

(** The name of the result file. *)
Definition result_filename (context_profile : option pystr) : pystr :=
  match context_profile with
  | Some (c :: name) => py "interpreted_" ++ (c :: name) ++ py ".json"
  | _ => py "processed.json"
  end.

Definition _write_processed_result (session_id job_id : pystr) (result : pydict)
    (context_profile : option pystr) : M unit :=
  let session_dir := path_join (SESSIONS_DIR env) session_id in
  let! there := read (fun s => bool_decide (session_dir ∈ dirs s)) in
  if negb there then ret tt
  else
    let output_path := path_join session_dir (result_filename context_profile) in
    let! locked := read (fun s => bool_decide (output_path ∈ read_only s)) in
    if locked then ret tt
    else
      run! commit (put_file output_path (JObj result)) in
      _update_session_status session_id (py "completed") job_id None.

(** [_flag]: the profile's value when it has the key, else the
    configured default. *)
Definition _flag (profile : option pydict) (profile_key : string) (dflt : bool) : bool :=
  match profile with
  | Some p =>
      if truthy (JObj p) then
        match p !! profile_key with
        | Some v => truthy v
        | None => dflt
        end
      else dflt
  | None => dflt
  end.

(** [profile.get("casing", dflt)]; every profile that has the key stores
    a [str]. *)
Definition profile_casing (profile : pydict) (dflt : pystr) : pystr :=
  match profile !! "casing" with
  | Some (JStr c) => c
  | _ => dflt
  end.

Definition truthy_str (s : option pystr) : bool :=
  match s with
  | Some (_ :: _) => true
  | _ => false
  end.

Definition when {A} (b : bool) (step : string) (job_id : pystr) (m : M A) (skip : A)
    : M A :=
  if b then
    run! update_job job_id None (Some (py step)) None None in m
  else ret skip.

(** [run_pipeline], in four parts that follow the source top to bottom:
    the profile and the effective flags; the stages after the retry
    stage, which end with the result dict; the stages up to there; and
    the tail that persists the outcome. *)
Definition profile_of (input_data : JobInput) : option pydict :=
  let profile :=
    if truthy_str (context_profile input_data)
    then get_profile (default [] (context_profile input_data)) else None in
  match profile with
  | Some p => if truthy (JObj p) then Some p else None
  | None => None
  end.

Definition initial_result (input_data : JobInput) : pydict :=
  let result : pydict := <["language" := JStr (language input_data)]> ∅ in
  match profile_of input_data with
  | Some _ => <["context_profile" := JStr (default [] (context_profile input_data))]> result
  | None => result
  end.

Definition casing_of (input_data : JobInput) (config : PipelineConfig) : pystr :=
  match profile_of input_data with
  | Some p => profile_casing p (casing_profile config)
  | None => casing_profile config
  end.

Definition after_retry (job_id : pystr) (input_data : JobInput) (config : PipelineConfig)
    (segments : list pydict) : M pydict :=
  let profile := profile_of input_data in
  let summary_enabled := _flag profile "summary" (summary_enabled config) in
  let pii_enabled := _flag profile "pii" (pii_flagging_enabled config) in
  let diarization_enabled := _flag profile "diarization" (diarization_enabled config) in
  let text_processing_enabled :=
    _flag profile "text_processing" (text_processing_enabled config) in
  let! segments :=
    when diarization_enabled "diarization" job_id
      (lift (diarize env segments (audio_path input_data))) segments in
  let! segments :=
    when (language_detect_enabled config) "language_detect" job_id
      (lift (LanguageDetect.detect_segment_languages (detect_langs env) segments
               (language input_data)))
      segments in
  let! segments :=
    when text_processing_enabled "text_processing" job_id
      (lift (TextProcessing.process_text (db env) segments (casing_of input_data config)))
      segments in
  let! segments :=
    when pii_enabled "pii_flagging" job_id
      (lift (PiiFlagging.flag_pii (db env) segments)) segments in
  let! summary :=
    when summary_enabled "summary" job_id
      (lift (generate_summary env segments config
               (match profile with Some p => p !! "prompt" | None => None end)))
      JNull in
  let result := <["segments" := JArr (map JObj segments)]> (initial_result input_data) in
  ret (if truthy summary then <["summary" := summary]> result else result).

Definition process (job_id : pystr) (input_data : JobInput) (config : PipelineConfig)
    : M pydict :=
  run! update_job job_id (Some (py "processing")) (Some (py "init")) None None in
  run! update_job job_id None (Some (py "confidence")) None None in
  let! segments := lift (Confidence.evaluate_confidence (segments input_data)) in
  let! segments :=
    when (retry_enabled config) "retry" job_id
      (retry_low_confidence segments (set_audio config (audio_base64 input_data)))
      segments in
  after_retry job_id input_data config segments.

Definition finish (job_id : pystr) (input_data : JobInput) (result : pydict) : M unit :=
  run! update_job job_id (Some (py "completed")) (Some (py "done")) (Some result) None in
  match session_id input_data with
  | Some (c :: sid) =>
      _write_processed_result (c :: sid) job_id result (context_profile input_data)
  | _ => ret tt
  end.

(** The body of the [try] of [run_pipeline]. *)
Definition stages (job_id : pystr) (input_data : JobInput) (config : PipelineConfig)
    : M unit :=
  let! result := process job_id input_data config in
  finish job_id input_data result.

Definition run_pipeline (job_id : pystr) (input_data : JobInput) (config : PipelineConfig)
    : M unit :=
  try_except (stages job_id input_data config)
    (fun e =>
       run! update_job job_id (Some (py "failed")) None None (Some (str_exn env e)) in
       match session_id input_data with
       | Some (c :: sid) =>
           _update_session_status (c :: sid) (py "failed") job_id (Some (str_exn env e))
       | _ => ret tt
       end).
End WithEnv.

End Pipeline.

(* ===================================================================== *)
(** ** backend/routers/realtime.py *)
(* ===================================================================== *)

Module Realtime.
Import Re.

(** The pattern: from the start to the end of the text, any number of
    characters of one set, which holds whitespace, the full stop, the
    exclamation and question marks, comma, semicolon, colon, hyphen, em
    and en dash, ellipsis, apostrophe, double quote (code 34), the two
    guillemets, parentheses and square brackets. *)
Definition _NOISE_RE : regex :=
  RCat RBol
    (RCat (RSet [CSpace; CChar (chr "."); CChar (chr "!"); CChar (chr "?");
                 CChar (chr ","); CChar (chr ";"); CChar (chr ":"); CChar (chr "-");
                 CChar (chr "—"); CChar (chr "–"); CChar (chr "…"); CChar (chr "'");
                 CChar 34%N; CChar (chr "«"); CChar (chr "»"); CChar (chr "(");
                 CChar (chr ")"); CChar (chr "["); CChar (chr "]")] 0 None)
       REol).

(** The locals of [websocket_transcribe], with what went out on the two
    connections: the chunks handed to [transcribe_audio] and the frames
    sent to the caller, oldest first. *)
Record Handler := {
  chunk_index : nat;
  audio_chunks : list (list N);
  transcripts : list json;
  transcribed : list (list N);
  sent : list json;
}.

Definition initial : Handler :=
  {| chunk_index := 0; audio_chunks := []; transcripts := []; transcribed := [];
     sent := [] |}.

Section Loop.
Variable db : unicode_db.
(** [transcribe_audio(data, "chunk.webm", profile)]: conversion with
    ffmpeg and the POST to the gateway.  The first argument is the list
    of chunks submitted before. *)
Variable transcribe_audio : list (list N) -> list N -> pystr -> pystr -> result json.
Variable str_exn : exn -> pystr.

(** [not text or _NOISE_RE.match(text)] *)
Definition is_noise (text : pystr) : bool :=
  match text with
  | [] => true
  | _ => match match_ db text _NOISE_RE with Some _ => true | None => false end
  end.

(** [result.get("text", "").strip()] *)
Definition response_text (result : json) : Py.result pystr :=
  let? t := obj_get result "text" (JStr []) in
  let? s := as_str AttributeError t in
  Ok (strip s).

Definition transcript_frame (text : pystr) (chunk : nat) (profile : pystr)
    (result : json) : json :=
  JObj (<["text" := JStr text]>
        (<["chunk" := JInt (Z.of_nat chunk)]>
         (<["profile" := JStr profile]>
          (<["segments" := match result with
                           | JObj m => get m "segments" JNull
                           | _ => JNull
                           end]> ∅)))).

Definition error_frame (e : exn) : json :=
  JObj (<["error" := JStr (str_exn e)]> ∅).

(** One turn of the [while True] loop, for the bytes received. *)
Definition on_chunk (profile : pystr) (h : Handler) (data : list N) : Handler :=
  match data with
  | [] => h
  | _ =>
      if (length data <? 500)%nat then h
      else
        let h1 :=
          {| chunk_index := chunk_index h;
             audio_chunks := audio_chunks h ++ [data];
             transcripts := transcripts h;
             transcribed := transcribed h ++ [data];
             sent := sent h |} in
        let fail e :=
          {| chunk_index := chunk_index h1; audio_chunks := audio_chunks h1;
             transcripts := transcripts h1; transcribed := transcribed h1;
             sent := sent h1 ++ [error_frame e] |} in
        match transcribe_audio (transcribed h) data (py "chunk.webm") profile with
        | Raise e => fail e
        | Ok result =>
            match response_text result with
            | Raise e => fail e
            | Ok text =>
                if is_noise text then h1
                else
                  {| chunk_index := S (chunk_index h1);
                     audio_chunks := audio_chunks h1;
                     transcripts := transcripts h1 ++ [result];
                     transcribed := transcribed h1;
                     sent := sent h1
                             ++ [transcript_frame text (chunk_index h1) profile result] |}
            end
        end
  end.

(** The loop over everything received before the disconnect. *)
Definition websocket_transcribe (profile : pystr) (received : list (list N)) : Handler :=
  fold_left (on_chunk profile) received initial.
End Loop.

End Realtime.

(* ===================================================================== *)
(** ** backend/routers/interpret.py with its two services *)
(* ===================================================================== *)

Module Interpret.

(** The sessions tree as the backend reads it, and the bodies POSTed to
    the batch worker, oldest first. *)
Record Backend := {
  dirs : gset pystr;
  files : gmap pystr json;
  submitted : list pydict;
}.

(** UTF-8, for a file name that becomes a key. *)
Definition utf8_encode_char (c : N) : list N :=
  (if c <? 128 then [c]
   else if c <? 2048 then [192 + c / 64; 128 + c mod 64]
   else if c <? 65536 then [224 + c / 4096; 128 + (c / 64) mod 64; 128 + c mod 64]
   else [240 + c / 262144; 128 + (c / 4096) mod 64; 128 + (c / 64) mod 64;
         128 + c mod 64])%N.

Definition key_of (s : pystr) : string :=
  string_of_list_ascii (map ascii_of_N (flat_map utf8_encode_char s)).

Section Router.
Variable SESSIONS_DIR : pystr.
(** The POST to [/jobs] of the batch worker: the parsed answer, or a
    failure of any kind. *)
Variable post_job : list pydict -> pydict -> result json.
Variable str_json : json -> pystr.          (* [str(v)] inside an f-string *)

Definition path_join (a b : pystr) : pystr :=
  if match b with c :: _ => (c =? 47)%N | [] => false end then b
  else
    match rev a with
    | [] => b
    | c :: _ => if (c =? 47)%N then a ++ b else a ++ 47%N :: b
    end.

(** [f[len("interpreted_"):-len(".json")]] when [f] has the prefix and
    the suffix. *)
Definition context_name (f : pystr) : option pystr :=
  let pre := py "interpreted_" in
  let suf := py ".json" in
  if bool_decide (take (length pre) f = pre)
     && bool_decide (drop (length f - length suf) f = suf)
  then Some (take (length f - length pre - length suf) (drop (length pre) f))
  else None.

(** The entry of [os.listdir(session_dir)] that a path stands for. *)
Definition entry_of (session_dir path : pystr) : option pystr :=
  let prefix := session_dir ++ [47%N] in
  if bool_decide (take (length prefix) path = prefix)
  then
    let f := drop (length prefix) path in
    if existsb (N.eqb 47) f then None else Some f
  else None.

Definition get_session_interpretations (b : Backend) (session_id : pystr) : pydict :=
  let session_dir := path_join SESSIONS_DIR session_id in
  if bool_decide (session_dir ∈ dirs b) then
    map_fold
      (fun path content acc =>
         match entry_of session_dir path ≫= context_name with
         | Some name => <[key_of name := content]> acc
         | None => acc
         end)
      ∅ (files b)
  else ∅.

Definition get_session (b : Backend) (session_id : pystr) : result (option pydict) :=
  let session_dir := path_join SESSIONS_DIR session_id in
  match files b !! path_join session_dir (py "session.json") with
  | None => Ok None
  | Some data =>
      let? data :=
        match files b !! path_join session_dir (py "processed.json") with
        | Some processed =>
            match data with
            | JObj d => Ok (JObj (<["processed" := processed]> d))
            | _ => Raise TypeError
            end
        | None => Ok data
        end in
      let interpretations := get_session_interpretations b session_id in
      let? data :=
        if truthy (JObj interpretations) then
          match data with
          | JObj d => Ok (JObj (<["interpretations" := JObj interpretations]> d))
          | _ => Raise TypeError
          end
        else Ok data in
      match data with
      | JObj d => Ok (Some d)
      | _ => Raise AttributeError        (* [session.get] on what is not a dict *)
      end
  end.

(** [submit_post_processing]: the payload goes out; any failure gives
    [None]. *)
Definition payload (session_id : pystr) (segments : json) (audio_path : option pystr)
    (language : pystr) (context_profile : option pystr) : pydict :=
  let base : pydict :=
    <["segments" := segments]>
    (<["language" := JStr language]>
     (<["session_id" := JStr session_id]>
      (<["audio_path" := match audio_path with Some a => JStr a | None => JNull end]> ∅)))
  in
  match context_profile with
  | Some (c :: name) => <["context_profile" := JStr (c :: name)]> base
  | _ => base
  end.

Definition submit_post_processing (b : Backend) (session_id : pystr) (segments : json)
    (audio_path : option pystr) (context_profile : option pystr) : json * Backend :=
  let body := payload session_id segments audio_path (py "sv") context_profile in
  let b' := {| dirs := dirs b; files := files b; submitted := submitted b ++ [body] |} in
  match post_job (submitted b) body with
  | Ok (JObj data) => (get data "job_id" JNull, b')
  | _ => (JNull, b')
  end.

Definition interpret_session (b : Backend) (session_id context : pystr)
    : result pydict * Backend :=
  match get_session b session_id with
  | Raise e => (Raise e, b)
  | Ok None => (Raise (HTTPException 404 (py "Session hittades inte")), b)
  | Ok (Some session) =>
      let segments := get session "segments" (JArr []) in
      if negb (truthy segments)
      then (Raise (HTTPException 400 (py "Sessionen har inga segment")), b)
      else
        let audio_file := get session "audio_file" JNull in
        let audio_path :=
          if truthy audio_file then
            let? f := as_str TypeError audio_file in
            Ok (Some (path_join (path_join SESSIONS_DIR session_id) f))
          else Ok None in
        match audio_path with
        | Raise e => (Raise e, b)
        | Ok audio_path =>
            let '(job_id, b') :=
              submit_post_processing b session_id segments audio_path (Some context) in
            if negb (truthy job_id)
            then (Raise (HTTPException 500 (py "Kunde inte skapa tolkningsjobb")), b')
            else
              (Ok (<["session_id" := JStr session_id]>
                   (<["context" := JStr context]>
                    (<["job_id" := job_id]>
                     (<["poll_url" := JStr (py "/api/jobs/" ++ str_json job_id)]> ∅)))),
               b')
        end
  end.
End Router.

End Interpret.

(* ===================================================================== *)
(** * Concrete inputs *)
(* ===================================================================== *)

Module Fixtures.
Import Re Worker Pipeline.

(** A word dict with the given probability. *)
Definition word (p : float) : json :=
  JObj (<["word" := JStr (py "ord")]> (<["probability" := JFloat p]> ∅)).

(** A segment whose confidence fields do not trigger, with ten words of
    which the first [k] have probability 0.1 and the others 0.9. *)
Definition ten_words (k : nat) : pydict :=
  <["words" := JArr (repeat (word 0.1) k ++ repeat (word 0.9) (10 - k))]>
    (<["avg_logprob" := JFloat (-0.5)]>
       (<["compression_ratio" := JFloat 1.2]>
          (<["no_speech_prob" := JFloat 0.1]>
             (<["text" := JStr (py "tio ord i rad")]> ∅)))).

(** A segment as [_format_mlx_segment] emits it when the engine gave no
    log-probability: the key is there, the value is [None]. *)
Definition mlx_segment : pydict :=
  <["start" := JFloat 0]>
    (<["end" := JFloat 1.5]>
       (<["text" := JStr (py "hej")]>
          (<["words" := JArr []]>
             (<["avg_logprob" := JNull]>
                (<["compression_ratio" := JFloat 1.2]>
                   (<["no_speech_prob" := JFloat 0.1]>
                      (<["low_confidence" := JBool false]> ∅))))))).

End Fixtures.

(* ===================================================================== *)
(** * The confidence stage *)
(* ===================================================================== *)

Section ConfidenceFacts.
Import Confidence.

(** A threshold test on a field that is a number, or absent. *)
Lemma lt_const_num (v : json) (x c : float) :
  num v = Ok x -> lt v (JFloat c) = Ok (PrimFloat.ltb x c).
Proof.
  intros H. destruct v; simpl in *; try discriminate; inversion H; reflexivity.
Qed.

Lemma gt_const_num (v : json) (x c : float) :
  num v = Ok x -> lt (JFloat c) v = Ok (PrimFloat.ltb c x).
Proof.
  intros H. destruct v; simpl in *; try discriminate; inversion H; reflexivity.
Qed.

(** The number of words below 0.3, for words that are dicts whose
    probability is a number or absent. *)
Definition low_word (w : json) : bool :=
  match word_is_low w with Ok b => b | Raise _ => false end.

Lemma count_low_from (ws : list json) (n : nat) :
  Forall (fun w => is_ok (word_is_low w) = true) ws ->
  fold_left
    (fun acc w => let? n := acc in let? b := word_is_low w in Ok (if b then S n else n))
    ws (Ok n)
  = Ok (n + length (List.filter low_word ws))%nat.
Proof.
  intros H. revert n. induction H as [|w ws Hw _ IH]; intros n; simpl.
  - f_equal. lia.
  - unfold low_word at 1. destruct (word_is_low w) as [b|e]; [|discriminate Hw].
    simpl. destruct b; rewrite IH; simpl; f_equal; lia.
Qed.

Lemma count_low_ok (ws : list json) :
  Forall (fun w => is_ok (word_is_low w) = true) ws ->
  count_low ws = Ok (length (List.filter low_word ws)).
Proof. intros H. unfold count_low. now rewrite count_low_from. Qed.

(** On a segment whose three scores are numbers (or absent) and whose
    words are a list of well-formed word dicts (or absent), the flag is
    the disjunction of the four tests; an absent field contributes the
    default, which triggers nothing. *)
Lemma is_low_confidence_dict_disjunction (seg : pydict) (a c n : float) (ws : list json) :
  num (get seg "avg_logprob" (JInt 0)) = Ok a ->
  num (get seg "compression_ratio" (JInt 0)) = Ok c ->
  num (get seg "no_speech_prob" (JInt 0)) = Ok n ->
  get seg "words" (JArr []) = JArr ws ->
  Forall (fun w => is_ok (word_is_low w) = true) ws ->
  _is_low_confidence_dict seg
  = Ok (PrimFloat.ltb a (-1.0) || PrimFloat.ltb 2.4 c || PrimFloat.ltb 0.6 n
        || (match ws with [] => false | _ => true end
            && ratio_exceeds (length (List.filter low_word ws)) (length ws))).
Proof.
  intros Ha Hc Hn Hw Hws. unfold _is_low_confidence_dict.
  rewrite (lt_const_num _ _ _ Ha). cbn [bindR].
  destruct (PrimFloat.ltb a (-1.0)); [reflexivity|].
  rewrite (gt_const_num _ _ _ Hc). cbn [bindR].
  destruct (PrimFloat.ltb 2.4 c); [reflexivity|].
  rewrite (gt_const_num _ _ _ Hn). cbn [bindR].
  destruct (PrimFloat.ltb 0.6 n); [reflexivity|].
  rewrite Hw. destruct ws as [|w ws']; [reflexivity|].
  cbn [truthy iter bindR]. rewrite (count_low_ok _ Hws). reflexivity.
Qed.

(** The boundary cases of the word test and of the compression ratio,
    computed with the floats of the interpreter. *)
Lemma three_of_ten_is_not_low :
  _is_low_confidence_dict (Fixtures.ten_words 3) = Ok false.
Proof. vm_compute. reflexivity. Qed.

Lemma four_of_ten_is_low :
  _is_low_confidence_dict (Fixtures.ten_words 4) = Ok true.
Proof. vm_compute. reflexivity. Qed.

Lemma compression_ratio_boundary :
  _is_low_confidence_dict (<["compression_ratio" := JFloat 2.4]> ∅) = Ok false
  /\ _is_low_confidence_dict (<["compression_ratio" := JFloat 2.41]> ∅) = Ok true.
Proof. split; vm_compute; reflexivity. Qed.

Lemma absent_fields_do_not_trigger :
  _is_low_confidence_dict ∅ = Ok false.
Proof. vm_compute. reflexivity. Qed.
End ConfidenceFacts.

(** C2.  The confidence stage does not compute the flag for every segment
    dict: a score that is present with the value [None], which is how the
    gateway serialises a score its engine did not report, makes
    [evaluate_confidence] raise [TypeError], while the gateway's own
    [_is_low_confidence_dict] treats the same field as not triggering and
    answers [False]. *)
Theorem confidence_stage_raises_on_null_score :
  Confidence.evaluate_confidence [Fixtures.mlx_segment] = Raise TypeError
  /\ Confidence._is_low_confidence_dict Fixtures.mlx_segment = Raise TypeError
  /\ ApiServer._is_low_confidence_dict Fixtures.mlx_segment = Ok false.
Proof. repeat split; vm_compute; reflexivity. Qed.

(* ===================================================================== *)
(** * The text stages: text_processing, pii_flagging, language_detect *)
(* ===================================================================== *)

Lemma mapR_Forall2 {A B} (f : A -> result B) (l : list A) (out : list B) :
  Forall2 (fun a b => f a = Ok b) l out -> mapR f l = Ok out.
Proof.
  induction 1 as [|a b l out Hab _ IH]; simpl; [reflexivity|].
  now rewrite Hab, IH.
Qed.

(** C9.  With the casing profile [verbatim] the text_processing stage
    returns the list it was given: no segment gains [processed_text] or
    [subtitle_lines], and no field changes. *)
Theorem process_text_verbatim_is_identity (db : Re.unicode_db) (segments : list pydict) :
  TextProcessing.process_text db segments (py "verbatim") = Ok segments.
Proof. reflexivity. Qed.

(** The other two profiles do rewrite the text, so the identity is a
    property of [verbatim] and not of the stage. *)
Lemma process_text_meeting_notes_example :
  TextProcessing.process_text Re.latin1
    [<["text" := JStr (py "hej där. är du här? ja")]> ∅] (py "meeting_notes")
  = Ok [<["processed_text" := JStr (py "Hej där. Är du här? Ja")]>
          (<["text" := JStr (py "hej där. är du här? ja")]> ∅)].
Proof. vm_compute. reflexivity. Qed.

Module PiiFacts.
Import Re PiiFlagging.

(** The segment that text_processing makes of an utterance with an en
    dash in a phone number: the dash is normalised in [processed_text]
    only. *)
Definition dashed : pydict := <["text" := JStr (py "nummer 070–123 45 67")]> ∅.

Definition dashed_processed : pydict :=
  <["processed_text" := JStr (py "Nummer 070-123 45 67")]> dashed.

(** The utterance of the specification's scenario. *)
Definition anna : pydict :=
  <["text" := JStr (py
      "Hej jag heter Anna min epost är anna@example.se och mitt nummer är 070-123 45 67")]> ∅.

Lemma scanned_prefers_text (seg : pydict) (c : N) (t : pystr) :
  seg !! "text" = Some (JStr (c :: t)) -> scanned seg = JStr (c :: t).
Proof. intros H. unfold scanned, get. rewrite H. reflexivity. Qed.

Lemma scanned_falls_back (seg : pydict) :
  truthy (get seg "text" (JStr [])) = false ->
  scanned seg = get seg "processed_text" (JStr []).
Proof. intros H. unfold scanned. rewrite H. reflexivity. Qed.

End PiiFacts.

(** C5, as stated, fails: on the segment that the meeting profile's
    text_processing produces for "nummer 070–123 45 67", [processed_text]
    is present and holds a phone number, yet the stage scans [text], finds
    nothing and stores [has_pii = False]. *)
Lemma pii_flagging_does_not_scan_processed_text :
  TextProcessing.process_text Re.latin1 [PiiFacts.dashed] (py "meeting_notes")
    = Ok [PiiFacts.dashed_processed]
  /\ length (PiiFlagging.scan Re.latin1 (py "Nummer 070-123 45 67")) = 1%nat
  /\ exists seg',
       PiiFlagging.flag_pii Re.latin1 [PiiFacts.dashed_processed] = Ok [seg']
       /\ seg' !! "pii_flags" = Some (JArr [])
       /\ seg' !! "has_pii" = Some (JBool false).
Proof.
  split; [vm_compute; reflexivity|]. split; [vm_compute; reflexivity|].
  eexists. split; [vm_compute; reflexivity|]. split; vm_compute; reflexivity.
Qed.

(** C5, amended.  The stage scans [text] whenever [text] is a non-empty
    string, and [processed_text] (or the empty string) only when [text] is
    absent or empty.  On the scanned string it collects the hits of the
    personnummer, email and telefon patterns, in that order, and then of
    the profanity pattern, stores them as [pii_flags], sets [has_pii] to
    whether there is a hit, and changes no other field. *)
Theorem pii_flagging_scans_text_first (db : Re.unicode_db) (seg : pydict)
    (scanned_text : pystr) :
  PiiFlagging.scanned seg = JStr scanned_text ->
  (forall c t, seg !! "text" = Some (JStr (c :: t)) -> scanned_text = c :: t)
  /\ (truthy (get seg "text" (JStr [])) = false ->
      get seg "processed_text" (JStr []) = JStr scanned_text)
  /\ exists seg',
       PiiFlagging.flag_pii db [seg] = Ok [seg']
       /\ seg' !! "pii_flags" = Some (JArr (PiiFlagging.scan db scanned_text))
       /\ seg' !! "has_pii"
          = Some (JBool (match PiiFlagging.scan db scanned_text with
                         | [] => false
                         | _ => true
                         end))
       /\ forall k, k <> "pii_flags" -> k <> "has_pii" -> seg' !! k = seg !! k.
Proof.
  intros Hs. split; [|split].
  - intros c t Ht. rewrite (PiiFacts.scanned_prefers_text _ _ _ Ht) in Hs.
    now inversion Hs.
  - intros Hf. now rewrite <- (PiiFacts.scanned_falls_back _ Hf).
  - eexists. split.
    + unfold PiiFlagging.flag_pii. cbn [mapR]. unfold PiiFlagging.flag_segment.
      rewrite Hs. cbn [as_str bindR]. reflexivity.
    + split; [|split].
      * rewrite lookup_insert_ne by discriminate. now rewrite lookup_insert_eq.
      * rewrite lookup_insert_eq. now destruct (PiiFlagging.scan db scanned_text).
      * intros k H1 H2. now rewrite !lookup_insert_ne by congruence.
Qed.

(** The amended statement at the scenario of the specification: the text
    holds an e-mail address and a phone number, so two flags. *)
Lemma pii_flagging_scans_text_first_witness :
  PiiFlagging.scanned PiiFacts.anna
  = JStr (py "Hej jag heter Anna min epost är anna@example.se och mitt nummer är 070-123 45 67")
  /\ exists seg',
       PiiFlagging.flag_pii Re.latin1 [PiiFacts.anna] = Ok [seg']
       /\ seg' !! "has_pii" = Some (JBool true)
       /\ seg' !! "text" = PiiFacts.anna !! "text".
Proof.
  split; [vm_compute; reflexivity|].
  destruct (pii_flagging_scans_text_first Re.latin1 PiiFacts.anna
              (py "Hej jag heter Anna min epost är anna@example.se och mitt nummer är 070-123 45 67")
              ltac:(vm_compute; reflexivity))
    as (_ & _ & seg' & Hrun & _ & Hhas & Hframe).
  exists seg'. split; [exact Hrun|]. split.
  - rewrite Hhas. vm_compute. reflexivity.
  - apply Hframe; discriminate.
Defined.

(** The scenario itself: exactly an [email] and a [telefon] hit. *)
Lemma pii_scenario_two_flags :
  map (fun f => match f with JObj m => m !! "type" | _ => None end)
      (PiiFlagging.scan Re.latin1
         (py "Hej jag heter Anna min epost är anna@example.se och mitt nummer är 070-123 45 67"))
  = [Some (JStr (py "email")); Some (JStr (py "telefon"))].
Proof. vm_compute. reflexivity. Qed.

Module LanguageFacts.
Import LanguageDetect.

(** A language identifier that always answers English, with a
    probability that needs rounding. *)
Definition english (_ : nat) (_ : pystr) : result (list Language) :=
  Ok [{| lang := py "en"; prob := 0.987654321 |};
      {| lang := py "sv"; prob := 0.012345679 |}].

Definition nine : pydict := <["text" := JStr (py "  hello you ")]> ∅.
Definition ten : pydict := <["text" := JStr (py " hello you! ")]> ∅.

(** What [annotate] stores. *)
Lemma annotate_fields (seg : pydict) (language : pystr) (confidence : float) (switch : bool) :
  annotate seg language confidence switch !! "detected_language" = Some (JStr language)
  /\ annotate seg language confidence switch !! "language_confidence"
     = Some (JFloat confidence)
  /\ annotate seg language confidence switch !! "language_switch" = Some (JBool switch)
  /\ forall k, k <> "detected_language" -> k <> "language_confidence" ->
       k <> "language_switch" ->
       annotate seg language confidence switch !! k = seg !! k.
Proof.
  unfold annotate. repeat split.
  - rewrite !lookup_insert_ne by discriminate. apply lookup_insert_eq.
  - rewrite lookup_insert_ne by discriminate. apply lookup_insert_eq.
  - apply lookup_insert_eq.
  - intros k H1 H2 H3. now rewrite !lookup_insert_ne by congruence.
Qed.

End LanguageFacts.

(** C6.  A segment whose trimmed text has fewer than 10 characters gets
    the file language with confidence 1.0 and [language_switch = False],
    and the language identifier is not called.  A segment whose trimmed
    text has 10 characters or more is given to the identifier; when the
    identifier answers with candidates, [detected_language] is the first
    one, [language_confidence] its probability rounded to 4 decimals, and
    [language_switch] is true exactly when that language is not the file
    language.  No other field of the segment changes. *)
Theorem language_detect_by_trimmed_length
    (detect_langs : nat -> pystr -> result (list LanguageDetect.Language))
    (file_language : pystr) (calls : nat) (seg : pydict) (raw : pystr) :
  get seg "text" (JStr []) = JStr raw ->
  ((length (strip raw) < 10)%nat ->
     exists seg',
       LanguageDetect.detect_segment detect_langs file_language calls seg = Ok (seg', calls)
       /\ seg' !! "detected_language" = Some (JStr file_language)
       /\ seg' !! "language_confidence" = Some (JFloat 1)
       /\ seg' !! "language_switch" = Some (JBool false)
       /\ forall k, k <> "detected_language" -> k <> "language_confidence" ->
            k <> "language_switch" -> seg' !! k = seg !! k)
  /\ ((10 <= length (strip raw))%nat ->
      forall best others, detect_langs calls (strip raw) = Ok (best :: others) ->
      exists seg' switch,
        LanguageDetect.detect_segment detect_langs file_language calls seg
          = Ok (seg', S calls)
        /\ seg' !! "detected_language" = Some (JStr (LanguageDetect.lang best))
        /\ seg' !! "language_confidence"
           = Some (JFloat (round_float (LanguageDetect.prob best) 4))
        /\ seg' !! "language_switch" = Some (JBool switch)
        /\ (switch = true <-> LanguageDetect.lang best <> file_language)
        /\ forall k, k <> "detected_language" -> k <> "language_confidence" ->
             k <> "language_switch" -> seg' !! k = seg !! k).
Proof.
  intros Htext. unfold LanguageDetect.detect_segment. rewrite Htext.
  cbn [as_str bindR]. unfold LanguageDetect.MIN_TEXT_LENGTH. split.
  - intros Hshort. apply Nat.ltb_lt in Hshort. rewrite Hshort.
    destruct (LanguageFacts.annotate_fields seg file_language 1 false) as (A & B & C & D).
    eexists. split; [reflexivity|]. auto.
  - intros Hlong best others Hbest.
    apply Nat.ltb_ge in Hlong. rewrite Hlong, Hbest.
    destruct (LanguageFacts.annotate_fields seg (LanguageDetect.lang best)
                (round_float (LanguageDetect.prob best) 4)
                (negb (bool_decide (LanguageDetect.lang best = file_language))))
      as (A & B & C & D).
    eexists. eexists. split; [reflexivity|]. repeat (split; [eassumption|]).
    split; [|exact D].
    rewrite negb_true_iff, bool_decide_eq_false. reflexivity.
Qed.

(** C6 at the boundary: nine characters after trimming stay with the file
    language, ten go to the identifier (here: English, 0.9877, a switch). *)
Lemma language_detect_by_trimmed_length_witness :
  (length (strip (py "  hello you ")) = 9)%nat
  /\ (length (strip (py " hello you! ")) = 10)%nat
  /\ (exists seg',
        LanguageDetect.detect_segment LanguageFacts.english (py "sv") 0 LanguageFacts.nine
          = Ok (seg', 0%nat)
        /\ seg' !! "detected_language" = Some (JStr (py "sv")))
  /\ (exists seg',
        LanguageDetect.detect_segment LanguageFacts.english (py "sv") 0 LanguageFacts.ten
          = Ok (seg', 1%nat)
        /\ seg' !! "detected_language" = Some (JStr (py "en"))
        /\ seg' !! "language_confidence" = Some (JFloat 0.9877)
        /\ seg' !! "language_switch" = Some (JBool true)).
Proof.
  split; [vm_compute; reflexivity|]. split; [vm_compute; reflexivity|]. split.
  - destruct (language_detect_by_trimmed_length LanguageFacts.english (py "sv") 0
                LanguageFacts.nine (py "  hello you ") ltac:(vm_compute; reflexivity))
      as [Hshort _].
    destruct Hshort as (seg' & Hrun & Hlang & _); [vm_compute; lia|].
    exists seg'. split; assumption.
  - destruct (language_detect_by_trimmed_length LanguageFacts.english (py "sv") 0
                LanguageFacts.ten (py " hello you! ") ltac:(vm_compute; reflexivity))
      as [_ Hlong].
    destruct (Hlong ltac:(vm_compute; lia) _ _ eq_refl)
      as (seg' & switch & Hrun & Hlang & Hconf & Hsw & Hiff & _).
    exists seg'. split; [exact Hrun|]. split; [exact Hlang|]. split; [exact Hconf|].
    rewrite Hsw. do 2 f_equal. apply Hiff. vm_compute. discriminate.
Defined.

(** When the identifier has no candidate, or raises its own exception,
    the segment falls back to the file language with confidence 0.0. *)
Lemma language_detect_fallback
    (detect_langs : nat -> pystr -> result (list LanguageDetect.Language))
    (file_language : pystr) (calls : nat) (seg : pydict) (raw : pystr) :
  get seg "text" (JStr []) = JStr raw ->
  (10 <= length (strip raw))%nat ->
  detect_langs calls (strip raw) = Ok [] \/
  detect_langs calls (strip raw) = Raise LangDetectException ->
  LanguageDetect.detect_segment detect_langs file_language calls seg
  = Ok (LanguageDetect.annotate seg file_language 0 false, S calls).
Proof.
  intros Htext Hlong Hd. unfold LanguageDetect.detect_segment. rewrite Htext.
  cbn [as_str bindR]. unfold LanguageDetect.MIN_TEXT_LENGTH.
  apply Nat.ltb_ge in Hlong. rewrite Hlong. now destruct Hd as [-> | ->].
Qed.

(* ===================================================================== *)
(** * The real-time stream handler *)
(* ===================================================================== *)

Module RealtimeFacts.
Import Re Realtime.

Section Steps.
Variable db : unicode_db.
Variable transcribe_audio : list (list N) -> list N -> pystr -> pystr -> result json.
Variable str_exn : exn -> pystr.
Variable profile : pystr.

Definition accepted (data : list N) : bool := (500 <=? length data)%nat.

Lemma on_chunk_small (h : Handler) (data : list N) :
  accepted data = false -> on_chunk db transcribe_audio str_exn profile h data = h.
Proof.
  unfold accepted, on_chunk. intros H. destruct data as [|c d]; [reflexivity|].
  apply Nat.leb_gt in H. apply Nat.ltb_lt in H. now rewrite H.
Qed.

Lemma on_chunk_buffers (h : Handler) (data : list N) :
  accepted data = true ->
  audio_chunks (on_chunk db transcribe_audio str_exn profile h data)
    = audio_chunks h ++ [data]
  /\ transcribed (on_chunk db transcribe_audio str_exn profile h data)
    = transcribed h ++ [data].
Proof.
  unfold accepted, on_chunk. intros H. apply Nat.leb_le in H.
  destruct data as [|c d]; [simpl in H; lia|].
  assert (Hlt : (length (c :: d) <? 500)%nat = false) by (apply Nat.ltb_ge; exact H).
  rewrite Hlt.
  destruct (transcribe_audio _ _ _ _) as [result|e]; [|split; reflexivity].
  destruct (response_text result) as [text|e]; [|split; reflexivity].
  destruct (is_noise db text); split; reflexivity.
Qed.

Lemma stream_buffers (received : list (list N)) (h : Handler) :
  audio_chunks (fold_left (on_chunk db transcribe_audio str_exn profile) received h)
    = audio_chunks h ++ List.filter accepted received
  /\ transcribed (fold_left (on_chunk db transcribe_audio str_exn profile) received h)
    = transcribed h ++ List.filter accepted received.
Proof.
  revert h. induction received as [|data rest IH]; intros h; simpl.
  - now rewrite !app_nil_r.
  - destruct (IH (on_chunk db transcribe_audio str_exn profile h data)) as [IH1 IH2].
    rewrite IH1, IH2. destruct (accepted data) eqn:Ha.
    + destruct (on_chunk_buffers h data Ha) as [-> ->]. now rewrite <- !app_assoc.
    + now rewrite (on_chunk_small h data Ha).
Qed.
End Steps.

(** A gateway that hears only punctuation. *)
Definition dots (_ : list (list N)) (_ : list N) (_ _ : pystr) : result json :=
  Ok (JObj (<["text" := JStr (py " ... ")]> ∅)).

End RealtimeFacts.

(** C7.  A chunk of fewer than 500 bytes leaves the handler as it was:
    it is neither buffered nor handed to transcription.  A chunk of 500
    bytes or more is appended to the buffered chunks and handed to
    transcription; over a whole stream, the buffered chunks and the
    transcribed chunks are exactly the received chunks of at least 500
    bytes, in order.  When the transcription of a chunk answers with a
    text that is empty after trimming or matches the noise pattern, no
    frame is sent and no transcript is buffered. *)
Theorem realtime_short_chunks_and_noise
    (db : Re.unicode_db)
    (transcribe_audio : list (list N) -> list N -> pystr -> pystr -> result json)
    (str_exn : exn -> pystr) (profile : pystr) (h : Realtime.Handler) (data : list N) :
  let h' := Realtime.on_chunk db transcribe_audio str_exn profile h data in
  ((length data < 500)%nat -> h' = h)
  /\ ((500 <= length data)%nat ->
      Realtime.audio_chunks h' = Realtime.audio_chunks h ++ [data]
      /\ Realtime.transcribed h' = Realtime.transcribed h ++ [data])
  /\ (forall received,
        let final := Realtime.websocket_transcribe db transcribe_audio str_exn profile
                       received in
        Realtime.audio_chunks final
          = List.filter (fun d => (500 <=? length d)%nat) received
        /\ Realtime.transcribed final
          = List.filter (fun d => (500 <=? length d)%nat) received)
  /\ ((500 <= length data)%nat ->
      forall result raw,
        transcribe_audio (Realtime.transcribed h) data (py "chunk.webm") profile = Ok result ->
        obj_get result "text" (JStr []) = Ok (JStr raw) ->
        strip raw = [] \/ is_Some (Re.match_ db (strip raw) Realtime._NOISE_RE) ->
        Realtime.sent h' = Realtime.sent h
        /\ Realtime.transcripts h' = Realtime.transcripts h).
Proof.
  intros h'. subst h'. split; [|split; [|split]].
  - intros Hs. apply RealtimeFacts.on_chunk_small. unfold RealtimeFacts.accepted.
    apply Nat.leb_gt. exact Hs.
  - intros Hl. apply RealtimeFacts.on_chunk_buffers. unfold RealtimeFacts.accepted.
    apply Nat.leb_le. exact Hl.
  - intros received final. subst final. unfold Realtime.websocket_transcribe.
    apply (RealtimeFacts.stream_buffers db transcribe_audio str_exn profile received
             Realtime.initial).
  - intros Hl result raw Htr Htext Hnoise. unfold Realtime.on_chunk.
    destruct data as [|c d]; [simpl in Hl; lia|].
    assert (Hlt : (length (c :: d) <? 500)%nat = false) by (apply Nat.ltb_ge; exact Hl).
    rewrite Hlt, Htr. unfold Realtime.response_text. rewrite Htext.
    cbn [as_str bindR].
    assert (Hn : Realtime.is_noise db (strip raw) = true).
    { unfold Realtime.is_noise. destruct Hnoise as [-> | [e He]]; [reflexivity|].
      rewrite He. now destruct (strip raw). }
    rewrite Hn. split; reflexivity.
Qed.

(** C7 at the boundary: 499 bytes are dropped, 500 bytes are buffered and
    transcribed, and an answer of dots is neither sent nor kept. *)
Lemma realtime_short_chunks_and_noise_witness :
  let run := Realtime.on_chunk Re.latin1 RealtimeFacts.dots (fun _ => []) (py "accurate")
               Realtime.initial in
  run (repeat 0%N 499) = Realtime.initial
  /\ Realtime.audio_chunks (run (repeat 0%N 500)) = [repeat 0%N 500]
  /\ Realtime.transcribed (run (repeat 0%N 500)) = [repeat 0%N 500]
  /\ Realtime.sent (run (repeat 0%N 500)) = []
  /\ Realtime.transcripts (run (repeat 0%N 500)) = [].
Proof.
  cbv zeta.
  pose proof (realtime_short_chunks_and_noise Re.latin1 RealtimeFacts.dots (fun _ => [])
                (py "accurate") Realtime.initial (repeat 0%N 499)) as H499.
  pose proof (realtime_short_chunks_and_noise Re.latin1 RealtimeFacts.dots (fun _ => [])
                (py "accurate") Realtime.initial (repeat 0%N 500)) as H500.
  cbv zeta in H499, H500.
  destruct H499 as [Hdrop _]. destruct H500 as (_ & Hbuf & _ & Hnoise).
  split; [apply Hdrop; rewrite repeat_length; lia|].
  destruct Hbuf as [Ha Ht]; [rewrite repeat_length; lia|].
  destruct (Hnoise ltac:(rewrite repeat_length; lia) _ (py " ... ") eq_refl eq_refl)
    as [Hs Hk].
  { right. vm_compute. eauto. }
  rewrite Ha, Ht, Hs, Hk. repeat split; reflexivity.
Defined.

(* ===================================================================== *)
(** * Re-interpretation *)
(* ===================================================================== *)

Module InterpretFacts.
Import Interpret.

Section Reads.
Variable SESSIONS_DIR : pystr.

Definition session_json (session_id : pystr) : pystr :=
  path_join (path_join SESSIONS_DIR session_id) (py "session.json").

(** [get_session] returns the object of session.json with at most the
    keys [processed] and [interpretations] added. *)
Lemma get_session_of_object (b : Backend) (session_id : pystr) (meta : pydict) :
  files b !! session_json session_id = Some (JObj meta) ->
  exists session,
    get_session SESSIONS_DIR b session_id = Ok (Some session)
    /\ forall k, k <> "processed" -> k <> "interpretations" -> session !! k = meta !! k.
Proof.
  intros Hmeta. unfold get_session. fold (session_json session_id). rewrite Hmeta.
  destruct (files b !! path_join (path_join SESSIONS_DIR session_id) (py "processed.json"))
    as [processed|];
    cbn [bindR];
    destruct (truthy (JObj (get_session_interpretations SESSIONS_DIR b session_id)));
    cbn [bindR]; eexists; (split; [reflexivity|]); intros k H1 H2;
    now rewrite ?lookup_insert_ne by congruence.
Qed.
End Reads.

(** A sessions tree with one session that has no segments and one that
    has a segment, and a batch worker that accepts every job. *)
Definition root : pystr := py "/app/transcriptions/sessions".

Definition empty_meta : pydict :=
  <["segments" := JArr []]> (<["audio_file" := JStr (py "audio.wav")]> ∅).

Definition full_meta : pydict :=
  <["segments" := JArr [JObj (<["text" := JStr (py "hej")]> ∅)]]>
    (<["audio_file" := JStr (py "audio.wav")]> ∅).

Definition backend : Backend :=
  {| dirs := {[ py "/app/transcriptions/sessions/empty";
                py "/app/transcriptions/sessions/full" ]};
     files :=
       <[py "/app/transcriptions/sessions/empty/session.json" := JObj empty_meta]>
       (<[py "/app/transcriptions/sessions/full/session.json" := JObj full_meta]> ∅);
     submitted := [] |}.

Definition accepting (_ : list pydict) (_ : pydict) : result json :=
  Ok (JObj (<["job_id" := JStr (py "job-1")]> (<["status" := JStr (py "queued")]> ∅))).

Definition str_json (v : json) : pystr :=
  match v with JStr s => s | _ => [] end.

End InterpretFacts.

(** C8.  On a session whose session.json is an object with an empty or
    missing [segments], re-interpret answers 400 with the empty-segments
    detail, posts no job and leaves the sessions tree as it was.  On a
    session with non-empty [segments] it posts one job whose body carries
    exactly those segments and the chosen context profile, and writes
    nothing to the sessions tree. *)
Theorem interpret_requires_segments
    (SESSIONS_DIR : pystr) (post_job : list pydict -> pydict -> result json)
    (str_json : json -> pystr) (b : Interpret.Backend) (session_id context : pystr)
    (meta : pydict) :
  Interpret.files b !! InterpretFacts.session_json SESSIONS_DIR session_id
    = Some (JObj meta) ->
  (truthy (get meta "segments" (JArr [])) = false ->
     Interpret.interpret_session SESSIONS_DIR post_job str_json b session_id context
     = (Raise (HTTPException 400 (py "Sessionen har inga segment")), b))
  /\ (truthy (get meta "segments" (JArr [])) = true ->
      context <> [] ->
      (truthy (get meta "audio_file" JNull) = true ->
       exists f, meta !! "audio_file" = Some (JStr f)) ->
      exists answer b' body,
        Interpret.interpret_session SESSIONS_DIR post_job str_json b session_id context
          = (answer, b')
        /\ Interpret.submitted b' = Interpret.submitted b ++ [body]
        /\ body !! "segments" = Some (get meta "segments" (JArr []))
        /\ body !! "context_profile" = Some (JStr context)
        /\ body !! "session_id" = Some (JStr session_id)
        /\ Interpret.files b' = Interpret.files b
        /\ Interpret.dirs b' = Interpret.dirs b).
Proof.
  intros Hmeta.
  destruct (InterpretFacts.get_session_of_object SESSIONS_DIR b session_id meta Hmeta)
    as (session & Hget & Hkeys).
  assert (Hseg : get session "segments" (JArr []) = get meta "segments" (JArr [])).
  { unfold get. now rewrite Hkeys by discriminate. }
  assert (Haud : get session "audio_file" JNull = get meta "audio_file" JNull).
  { unfold get. now rewrite Hkeys by discriminate. }
  unfold Interpret.interpret_session. rewrite Hget, Hseg, Haud. split.
  - intros Hempty. now rewrite Hempty.
  - intros Hfull Hctx Haudio. rewrite Hfull. cbn [negb].
    assert (Hpath : exists p,
      (if truthy (get meta "audio_file" JNull)
       then let? f := as_str TypeError (get meta "audio_file" JNull) in
            Ok (Some (Interpret.path_join (Interpret.path_join SESSIONS_DIR session_id) f))
       else Ok None) = Ok p).
    { destruct (truthy (get meta "audio_file" JNull)) eqn:Ht; [|eauto].
      destruct (Haudio eq_refl) as [f Hf]. unfold get. rewrite Hf. simpl. eauto. }
    destruct Hpath as [p ->].
    destruct context as [|c name]; [congruence|].
    unfold Interpret.submit_post_processing.
    set (body := Interpret.payload session_id (get meta "segments" (JArr [])) p (py "sv")
                   (Some (c :: name))).
    assert (Hb1 : body !! "segments" = Some (get meta "segments" (JArr []))).
    { subst body. unfold Interpret.payload.
      rewrite lookup_insert_ne by discriminate. apply lookup_insert_eq. }
    assert (Hb2 : body !! "context_profile" = Some (JStr (c :: name))).
    { subst body. unfold Interpret.payload. apply lookup_insert_eq. }
    assert (Hb3 : body !! "session_id" = Some (JStr session_id)).
    { subst body. unfold Interpret.payload.
      rewrite !lookup_insert_ne by discriminate. apply lookup_insert_eq. }
    destruct (post_job (Interpret.submitted b) body) as [[| | | | | |data]|e];
      cbn iota beta;
      try (do 3 eexists; split; [reflexivity|]; repeat split; assumption).
    destruct (negb (truthy (get data "job_id" JNull)));
      do 3 eexists; (split; [reflexivity|]); repeat split; assumption.
Qed.

(** C8 on a concrete tree: the session without segments is refused with
    400 and nothing is posted; the session with a segment is posted under
    the context [journal]. *)
Lemma interpret_requires_segments_witness :
  Interpret.interpret_session InterpretFacts.root InterpretFacts.accepting
    InterpretFacts.str_json InterpretFacts.backend (py "empty") (py "journal")
  = (Raise (HTTPException 400 (py "Sessionen har inga segment")), InterpretFacts.backend)
  /\ exists answer b' body,
       Interpret.interpret_session InterpretFacts.root InterpretFacts.accepting
         InterpretFacts.str_json InterpretFacts.backend (py "full") (py "journal")
       = (answer, b')
       /\ Interpret.submitted b' = [body]
       /\ body !! "context_profile" = Some (JStr (py "journal"))
       /\ body !! "segments" = Some (JArr [JObj (<["text" := JStr (py "hej")]> ∅)]).
Proof.
  split.
  - refine (proj1 (interpret_requires_segments InterpretFacts.root InterpretFacts.accepting
             InterpretFacts.str_json InterpretFacts.backend (py "empty") (py "journal")
             InterpretFacts.empty_meta _) _); vm_compute; reflexivity.
  - destruct (proj2 (interpret_requires_segments InterpretFacts.root
             InterpretFacts.accepting InterpretFacts.str_json InterpretFacts.backend
             (py "full") (py "journal") InterpretFacts.full_meta
             ltac:(vm_compute; reflexivity)))
      as (answer & b' & body & Hrun & Hsub & Hseg & Hctx & _).
    + vm_compute. reflexivity.
    + vm_compute. discriminate.
    + intros _. exists (py "audio.wav"). vm_compute. reflexivity.
    + exists answer, b', body. repeat split; assumption.
Defined.

(* ===================================================================== *)
(** * The gateway's retry endpoint *)
(* ===================================================================== *)

Module FloatOrder.

(** The order of binary64 floats, from the specification of the
    comparison primitives. *)
Ltac compare_cases :=
  repeat match goal with
  | H : context [Z.compare ?a ?b] |- _ => destruct (Z.compare_spec a b); subst
  | |- context [Z.compare ?a ?b] => destruct (Z.compare_spec a b); subst
  | H : context [Pos.compare_cont Eq ?a ?b] |- _ =>
      change (Pos.compare_cont Eq a b) with (Pos.compare a b) in H;
      destruct (Pos.compare_spec a b); subst
  | |- context [Pos.compare_cont Eq ?a ?b] =>
      change (Pos.compare_cont Eq a b) with (Pos.compare a b);
      destruct (Pos.compare_spec a b); subst
  end.

Lemma SFcompare_lt_le_trans (x y z : spec_float) :
  SFcompare x y = Some Lt ->
  SFcompare y z = Some Lt \/ SFcompare y z = Some Eq ->
  SFcompare x z = Some Lt.
Proof.
  destruct x as [sx|sx| |sx mx ex], y as [sy|sy| |sy my ey], z as [sz|sz| |sz mz ez];
    simpl; intros H [H'|H']; try discriminate;
    repeat match goal with s : bool |- _ => destruct s end;
    simpl in *; try discriminate; try reflexivity;
    compare_cases; simpl in *; try discriminate; try reflexivity; try lia.
Qed.

Lemma SFcompare_lt_irrefl (x : spec_float) : SFcompare x x <> Some Lt.
Proof.
  destruct x as [sx|sx| |sx mx ex]; simpl; try discriminate;
    repeat match goal with s : bool |- _ => destruct s end; simpl; try discriminate;
    rewrite Z.compare_refl;
    change (Pos.compare_cont Eq mx mx) with (Pos.compare mx mx);
    rewrite Pos.compare_refl; discriminate.
Qed.

Lemma ltb_compare (x y : float) :
  PrimFloat.ltb x y = true <-> SFcompare (Prim2SF x) (Prim2SF y) = Some Lt.
Proof.
  rewrite FloatAxioms.ltb_spec. unfold SFltb.
  destruct (SFcompare _ _) as [[]|]; split; congruence.
Qed.

Lemma leb_compare (x y : float) :
  PrimFloat.leb x y = true ->
  SFcompare (Prim2SF x) (Prim2SF y) = Some Lt \/ SFcompare (Prim2SF x) (Prim2SF y) = Some Eq.
Proof.
  rewrite FloatAxioms.leb_spec. unfold SFleb.
  destruct (SFcompare _ _) as [[]|]; auto; congruence.
Qed.

Lemma lt_le_trans (x y z : float) :
  PrimFloat.ltb x y = true -> PrimFloat.leb y z = true -> PrimFloat.ltb x z = true.
Proof.
  intros H1 H2. apply ltb_compare. apply ltb_compare in H1. apply leb_compare in H2.
  exact (SFcompare_lt_le_trans _ _ _ H1 H2).
Qed.

Lemma lt_irrefl (x : float) : PrimFloat.ltb x x = false.
Proof.
  destruct (PrimFloat.ltb x x) eqn:H; [|reflexivity].
  apply ltb_compare in H. now apply SFcompare_lt_irrefl in H.
Qed.

(** No four floats go round in a circle [a < b <= c < d <= a]. *)
Lemma no_cycle (a b c d : float) :
  PrimFloat.ltb a b = true -> PrimFloat.leb b c = true ->
  PrimFloat.ltb c d = true -> PrimFloat.leb d a = true -> False.
Proof.
  intros H1 H2 H3 H4.
  pose proof (lt_le_trans _ _ _ H1 H2) as H5.
  apply ltb_compare in H5, H3. apply leb_compare in H4.
  pose proof (SFcompare_lt_le_trans _ _ _ H5 (or_introl H3)) as H6.
  pose proof (SFcompare_lt_le_trans _ _ _ H6 H4) as H7.
  exact (SFcompare_lt_irrefl _ H7).
Qed.

End FloatOrder.

Module GatewayFacts.
Import ApiServer.

(** The words of the specification: a segment overlaps the window when it
    neither ends before the window starts nor starts after it ends; the
    segments read are those before the first one that starts after the
    window. *)
Definition overlaps (request : RetryRequest) (segment : Segment) : bool :=
  negb (ends_before request segment) && negb (starts_after request segment).

Fixpoint until_first_after (request : RetryRequest) (segments : list Segment)
    : list Segment :=
  match segments with
  | [] => []
  | segment :: rest =>
      if starts_after request segment then []
      else segment :: until_first_after request rest
  end.

Definition well_formed (segment : Segment) : Prop :=
  PrimFloat.leb (seg_start segment) (seg_end segment) = true.

Definition starts_no_later (s t : Segment) : Prop :=
  PrimFloat.leb (seg_start s) (seg_start t) = true.

Lemma window_is_filtered_prefix (request : RetryRequest) (segments : list Segment) :
  PrimFloat.leb (start request) (end_ request) = true ->
  Forall well_formed segments ->
  window request segments
  = map _format_segment
      (List.filter (overlaps request) (until_first_after request segments)).
Proof.
  intros Hwin Hwf. induction Hwf as [|s rest Hs _ IH]; simpl; [reflexivity|].
  unfold overlaps at 1.
  destruct (ends_before request s) eqn:Hb.
  - destruct (starts_after request s) eqn:Ha.
    + exfalso. unfold ends_before, starts_after in *.
      exact (FloatOrder.no_cycle _ _ _ _ Ha Hs Hb Hwin).
    + simpl. rewrite Hb. simpl. exact IH.
  - destruct (starts_after request s) eqn:Ha; simpl; [reflexivity|].
    rewrite Hb, Ha. simpl. now rewrite IH.
Qed.

Lemma nothing_overlaps_after (request : RetryRequest) (s : Segment) (rest : list Segment) :
  starts_after request s = true ->
  Forall (starts_no_later s) rest ->
  List.filter (overlaps request) rest = [].
Proof.
  intros Ha. induction 1 as [|t rest Ht _ IH]; simpl; [reflexivity|].
  unfold overlaps at 1.
  assert (Hat : starts_after request t = true).
  { unfold starts_after in *. exact (FloatOrder.lt_le_trans _ _ _ Ha Ht). }
  rewrite Hat, andb_false_r. exact IH.
Qed.

Lemma prefix_loses_nothing_when_sorted (request : RetryRequest) (segments : list Segment) :
  StronglySorted starts_no_later segments ->
  List.filter (overlaps request) (until_first_after request segments)
  = List.filter (overlaps request) segments.
Proof.
  induction 1 as [|s rest _ IH Hall]; simpl; [reflexivity|].
  destruct (starts_after request s) eqn:Ha.
  - simpl. unfold overlaps at 1. rewrite Ha, andb_false_r.
    symmetry. exact (nothing_overlaps_after request s rest Ha Hall).
  - simpl. now rewrite IH.
Qed.

(** A transcription of five segments, the last one out of time order, and
    a request for the window from 1.5 s to 3 s. *)
Definition seg (a b : float) : Segment :=
  {| seg_start := a; seg_end := b; seg_text := py " ord "; seg_words := None;
     seg_avg_logprob := (-0.2)%float; seg_compression_ratio := 1.1%float;
     seg_no_speech_prob := 0.01%float |}.

Definition transcription : list Segment :=
  [seg 0 1; seg 1 2.5; seg 2.5 4; seg 5 6; seg 2 3].

Definition request : RetryRequest :=
  {| audio_url := None; audio_base64 := Some (py "UklGRg=="); start := 1.5%float;
     end_ := 3%float; beam_size := 10; model := py "KBLab/kb-whisper-medium";
     language := py "sv" |}.

Definition info : TranscriptionInfo :=
  {| info_language := py "sv"; info_language_probability := 0.98%float |}.

(** Stand-ins for the model cache, the decoder and the engine. *)
Definition get_model (_ : pystr) : result unit := Ok tt.
Definition decode (s : pystr) : result (list N) := Ok s.
Definition engine (_ : unit) (_ : list N) (_ : pystr) (_ : Z) (_ : bool)
    : result (list Segment * TranscriptionInfo) := Ok (transcription, info).

End GatewayFacts.

(** C4.  The retry endpoint hands the whole decoded blob to the engine
    and answers with the formatted segments, in transcription order, that
    overlap the window, among those read before the first segment that
    starts after the window: a segment that ends before the window starts
    is skipped, and nothing from the first segment that starts after the
    window ends is returned.  When the transcription is in time order,
    these are all the overlapping segments.  The window and the segments
    are intervals: each starts no later than it ends. *)
Theorem transcribe_retry_returns_overlapping
    (fw_model : Type) (_get_fw_model : pystr -> result fw_model)
    (b64decode : pystr -> result (list N)) (VAD_FILTER : bool)
    (transcribe : fw_model -> list N -> pystr -> Z -> bool ->
                  result (list ApiServer.Segment * ApiServer.TranscriptionInfo))
    (request : ApiServer.RetryRequest) (c : N) (audio : pystr) (model : fw_model)
    (audio_bytes : list N) (segments : list ApiServer.Segment)
    (info : ApiServer.TranscriptionInfo) :
  ApiServer.audio_base64 request = Some (c :: audio) ->
  _get_fw_model (ApiServer.model request) = Ok model ->
  b64decode (c :: audio) = Ok audio_bytes ->
  transcribe model audio_bytes (ApiServer.language request) (ApiServer.beam_size request)
    VAD_FILTER = Ok (segments, info) ->
  PrimFloat.leb (ApiServer.start request) (ApiServer.end_ request) = true ->
  Forall GatewayFacts.well_formed segments ->
  exists body,
    ApiServer.transcribe_retry fw_model _get_fw_model b64decode VAD_FILTER transcribe request
      = Ok body
    /\ body !! "segments"
       = Some (JArr (map JObj (map ApiServer._format_segment
           (List.filter (GatewayFacts.overlaps request)
              (GatewayFacts.until_first_after request segments)))))
    /\ (StronglySorted GatewayFacts.starts_no_later segments ->
        body !! "segments"
        = Some (JArr (map JObj (map ApiServer._format_segment
            (List.filter (GatewayFacts.overlaps request) segments))))).
Proof.
  intros Haudio Hmodel Hdecode Htr Hwin Hwf.
  unfold ApiServer.transcribe_retry. rewrite Haudio, Hmodel. cbn [bindR].
  rewrite Hdecode. cbn [bindR]. rewrite Htr. cbn [bindR fst snd].
  eexists. split; [reflexivity|].
  rewrite lookup_insert_eq.
  rewrite (GatewayFacts.window_is_filtered_prefix request segments Hwin Hwf).
  split; [reflexivity|].
  intros Hsorted. now rewrite (GatewayFacts.prefix_loses_nothing_when_sorted _ _ Hsorted).
Qed.

(** C4 on a transcription of five segments and the window from 1.5 s to
    3 s: the first segment ends before the window and is skipped, the
    second and third overlap and are returned, the fourth starts after the
    window and ends the reading, so the fifth is not returned although it
    overlaps. *)
Lemma transcribe_retry_returns_overlapping_witness :
  exists body,
    ApiServer.transcribe_retry unit GatewayFacts.get_model GatewayFacts.decode true
      GatewayFacts.engine GatewayFacts.request = Ok body
    /\ body !! "segments"
       = Some (JArr [JObj (ApiServer._format_segment (GatewayFacts.seg 1 2.5));
                     JObj (ApiServer._format_segment (GatewayFacts.seg 2.5 4))]).
Proof.
  destruct (transcribe_retry_returns_overlapping unit GatewayFacts.get_model
              GatewayFacts.decode true GatewayFacts.engine GatewayFacts.request
              85%N (py "klGRg==") tt (py "UklGRg==") GatewayFacts.transcription
              GatewayFacts.info eq_refl eq_refl eq_refl eq_refl)
    as (body & Hrun & Hsegs & _).
  - vm_compute. reflexivity.
  - repeat constructor.
  - exists body. split; [exact Hrun|]. rewrite Hsegs. vm_compute. reflexivity.
Defined.

(* ===================================================================== *)
(** * The retry stage *)
(* ===================================================================== *)

Module RetryFacts.
Import Worker Pipeline.

Section Stage.
Variable env : Env.

(** The stage in the words of the specification.  A call of the gateway
    is a retry request for the segment, sent with the configured HTTP
    retries; it yields the first retry segment of the answer when the
    answer has one. *)
Definition first_retry_segment (response : option json) : option pydict :=
  match response with
  | Some (JObj data) =>
      match data !! "segments" with
      | Some (JArr (JObj best :: _)) => Some best
      | _ => None
      end
  | _ => None
  end.

Definition call_gateway (audio_base64 : pystr) (seg : pydict) (config : PipelineConfig)
    (model : pystr) : M (option pydict) :=
  match retry_body audio_base64 seg config model with
  | Raise _ => ret None
  | Ok body =>
      fun w =>
        match _post_with_retries env (retry_url config) body config w with
        | (Ok response, w') => (Ok (first_retry_segment response), w')
        | (Raise _, w') => (Ok None, w')
        end
  end.

Definition still_low (best : pydict) : bool :=
  truthy (get best "low_confidence" (JBool true)).

Definition retried (seg best : pydict) (name : string) : pydict :=
  <["retry_model" := JStr (py name)]> (<["retried" := JBool true]> (merge seg best)).

Definition strategy_B (audio_base64 : pystr) (config : PipelineConfig) (seg : pydict)
    : M pydict :=
  if retry_with_large config then
    let! b := call_gateway audio_base64 seg config large in
    ret (match b with Some best => retried seg best "large" | None => seg end)
  else ret seg.

Definition retry_one (audio_base64 : pystr) (config : PipelineConfig) (seg : pydict)
    : M pydict :=
  if marked_low seg then
    let! a := call_gateway audio_base64 seg config medium in
    match a with
    | Some best =>
        if still_low best then strategy_B audio_base64 config seg
        else ret (retried seg best "medium")
    | None => strategy_B audio_base64 config seg
    end
  else ret seg.

Fixpoint retry_each (audio_base64 : pystr) (config : PipelineConfig)
    (segments : list pydict) : M (list pydict) :=
  match segments with
  | [] => ret []
  | seg :: rest =>
      let! seg' := retry_one audio_base64 config seg in
      let! rest' := retry_each audio_base64 config rest in
      ret (seg' :: rest')
  end.

(** How a segment can come out of the stage. *)
Definition outcome (config : PipelineConfig) (seg out : pydict) : Prop :=
  out = seg
  \/ (exists best, still_low best = false /\ out = retried seg best "medium")
  \/ (exists best, retry_with_large config = true /\ out = retried seg best "large").

(** What a body posted by the stage is. *)
Definition is_retry_request (audio_base64 : pystr) (config : PipelineConfig)
    (segments : list pydict) (body : json) : Prop :=
  exists seg model,
    In seg segments /\ marked_low seg = true
    /\ retry_body audio_base64 seg config model = Ok body
    /\ (model = medium \/ (model = large /\ retry_with_large config = true)).

(** *** The two strategies read as calls of the gateway *)

Lemma strategy_1_calls (audio_base64 : pystr) (seg : pydict) (config : PipelineConfig)
    (w : World) :
  strategy_1 env audio_base64 seg config w
  = (let! a := call_gateway audio_base64 seg config medium in
     ret (match a with
          | Some best => if still_low best then None else Some (retried seg best "medium")
          | None => None
          end)) w.
Proof.
  unfold strategy_1, call_gateway, try_except, bindM, lift, ret.
  destruct (retry_body audio_base64 seg config medium) as [body|e]; [|reflexivity].
  destruct (_post_with_retries env (retry_url config) body config w) as [[response|e] w'];
    [|reflexivity].
  unfold retry_segments, first_retry_segment, obj_get, get.
  destruct response as [[| | | | | |data]|]; try reflexivity.
  destruct (data !! "segments") as [[|b|z|f|s|l|m]|]; cbn; try reflexivity.
  - destruct b; reflexivity.
  - destruct (Z.eqb z 0); reflexivity.
  - destruct (PrimFloat.eqb f 0); reflexivity.
  - destruct s; reflexivity.
  - destruct l as [|[| | | | | |best] l']; cbn; try reflexivity.
    unfold still_low, get. destruct (truthy _); reflexivity.
  - destruct (Nat.eqb (size m) 0); reflexivity.
Qed.

Lemma strategy_2_calls (audio_base64 : pystr) (seg : pydict) (config : PipelineConfig)
    (w : World) :
  strategy_2 env audio_base64 seg config w
  = (let! b := call_gateway audio_base64 seg config large in
     ret (match b with
          | Some best => Some (retried seg best "large")
          | None => None
          end)) w.
Proof.
  unfold strategy_2, call_gateway, try_except, bindM, lift, ret.
  destruct (retry_body audio_base64 seg config large) as [body|e]; [|reflexivity].
  destruct (_post_with_retries env (retry_url config) body config w) as [[response|e] w'];
    [|reflexivity].
  unfold retry_segments, first_retry_segment, obj_get, get.
  destruct response as [[| | | | | |data]|]; try reflexivity.
  destruct (data !! "segments") as [[|b|z|f|s|l|m]|]; cbn; try reflexivity.
  - destruct b; reflexivity.
  - destruct (Z.eqb z 0); reflexivity.
  - destruct (PrimFloat.eqb f 0); reflexivity.
  - destruct s; reflexivity.
  - destruct l as [|[| | | | | |best] l']; cbn; reflexivity.
  - destruct (Nat.eqb (size m) 0); reflexivity.
Qed.

Lemma retry_segment_is_retry_one (audio_base64 : pystr) (config : PipelineConfig)
    (seg : pydict) (w : World) :
  marked_low seg = true ->
  (let! r := retry_segment env audio_base64 config seg in ret (default seg r)) w
  = retry_one audio_base64 config seg w.
Proof.
  intros Hlow. unfold retry_one, retry_segment, strategy_B. rewrite Hlow.
  unfold bindM, ret. rewrite strategy_1_calls. unfold bindM, ret.
  destruct (call_gateway audio_base64 seg config medium w) as [[a|e] w1]; [|reflexivity].
  destruct a as [best|].
  - destruct (still_low best); [|reflexivity].
    destruct (retry_with_large config); [|reflexivity].
    rewrite strategy_2_calls. unfold bindM, ret.
    destruct (call_gateway audio_base64 seg config large w1) as [[[b|]|e] w2]; reflexivity.
  - destruct (retry_with_large config); [|reflexivity].
    rewrite strategy_2_calls. unfold bindM, ret.
    destruct (call_gateway audio_base64 seg config large w1) as [[[b|]|e] w2]; reflexivity.
Qed.

(** A call of the gateway never raises. *)
Lemma call_gateway_total (audio_base64 : pystr) (seg : pydict) (config : PipelineConfig)
    (model : pystr) (w : World) :
  exists a w', call_gateway audio_base64 seg config model w = (Ok a, w').
Proof.
  unfold call_gateway. destruct (retry_body _ _ _ _) as [body|e]; [|unfold ret; eauto].
  destruct (_post_with_retries env _ body config w) as [[r|e] w']; eauto.
Qed.

(** *** In-place updates by index are a left-to-right map *)

Lemma retry_loop_is_retry_each (audio_base64 : pystr) (config : PipelineConfig) :
  forall (segs pre : list pydict) (w : World),
    retry_loop env audio_base64 config
      (List.filter (fun p => marked_low (snd p))
         (imap (fun i seg => (length pre + i, seg)%nat) segs))
      (pre ++ segs) w
    = (let! out := retry_each audio_base64 config segs in ret (pre ++ out)) w.
Proof.
  induction segs as [|seg rest IH]; intros pre w.
  - reflexivity.
  - rewrite imap_cons. cbn [List.filter snd retry_each].
    assert (Hshift : forall new : pydict,
      imap ((fun i s => (length pre + i, s)%nat) ∘ S) rest
      = imap (fun i s => (length (pre ++ [new]) + i, s)%nat) rest).
    { intros new. apply imap_ext. intros i x _. cbn. rewrite length_app. cbn.
      f_equal. lia. }
    destruct (marked_low seg) eqn:Hlow.
    + cbn [retry_loop].
      pose proof (retry_segment_is_retry_one audio_base64 config seg w Hlow) as Hone.
      unfold bindM, ret in *. rewrite <- Hone.
      destruct (retry_segment env audio_base64 config seg w) as [[r|e] w1]; [|reflexivity].
      set (new := default seg r).
      assert (Hupd : match r with
                     | Some new0 => <[(length pre + 0)%nat := new0]> (pre ++ seg :: rest)
                     | None => pre ++ seg :: rest
                     end = (pre ++ [new]) ++ rest).
      { subst new. rewrite <- app_assoc. destruct r as [new0|]; [|reflexivity].
        cbn [default]. now rewrite insert_app_r. }
      rewrite Hupd, (Hshift new), IH.
      destruct (retry_each audio_base64 config rest w1) as [[out|e] w2]; [|reflexivity].
      now rewrite <- app_assoc.
    + unfold retry_one. rewrite Hlow. unfold bindM, ret in *.
      change (pre ++ seg :: rest) with (pre ++ [seg] ++ rest).
      rewrite app_assoc, (Hshift seg), IH.
      destruct (retry_each audio_base64 config rest w) as [[out|e] w2]; [|reflexivity].
      now rewrite <- app_assoc.
Qed.

Lemma retry_stage_is_retry_each (segments : list pydict) (config : PipelineConfig)
    (c : N) (audio : pystr) (w : World) :
  _audio_base64 config = Some (c :: audio) ->
  retry_low_confidence env segments config w = retry_each (c :: audio) config segments w.
Proof.
  intros Haudio. unfold retry_low_confidence. rewrite Haudio.
  assert (Hloop : retry_loop env (c :: audio) config (low_segments segments) segments w
                  = retry_each (c :: audio) config segments w).
  { pose proof (retry_loop_is_retry_each (c :: audio) config segments [] w) as H.
    cbn [app length Nat.add] in H. unfold low_segments. rewrite H. unfold bindM.
    now destruct (retry_each (c :: audio) config segments w) as [[out|e] w']. }
  destruct (low_segments segments) eqn:Hl; [|exact Hloop].
  rewrite <- Hloop. reflexivity.
Qed.

(** *** What the stage sends and what it returns *)

(** The attempts of one call post the same body, at most [n] times and,
    when [n] is positive, at least once; nothing else changes. *)
Lemma attempts_posts (url : pystr) (body : json) :
  forall (n : nat) (last_exc : option exn) (w : World) r w',
    attempts env n url body last_exc w = (r, w') ->
    exists k, posts w' = posts w ++ repeat body k
      /\ (k <= n)%nat /\ (0 < n -> 0 < k)%nat
      /\ store w' = store w /\ seen w' = seen w /\ ticks w' = ticks w.
Proof.
  induction n as [|n IH]; intros last_exc w r w' H.
  - exists 0%nat. cbn in H. destruct last_exc; inversion H; subst; cbn;
      rewrite app_nil_r; repeat split; lia.
  - cbn [attempts] in H. unfold bindM, send in H.
    set (w1 := {| store := store w; seen := seen w; posts := posts w ++ [body];
                  ticks := ticks w |}) in *.
    destruct (post env (posts w) url body).
    + inversion H; subst. exists 1%nat. cbn. repeat split; lia.
    + destruct (IH _ _ _ _ H) as (k & Hp & Hk & _ & Hs & Hn & Ht).
      exists (S k). rewrite Hp. cbn. rewrite <- app_assoc. cbn. repeat split; auto; lia.
    + destruct (IH _ _ _ _ H) as (k & Hp & Hk & _ & Hs & Hn & Ht).
      exists (S k). rewrite Hp. cbn. rewrite <- app_assoc. cbn. repeat split; auto; lia.
    + inversion H; subst. exists 1%nat. cbn. repeat split; lia.
Qed.

Lemma call_gateway_posts (audio_base64 : pystr) (seg : pydict) (config : PipelineConfig)
    (model : pystr) (w : World) r w' :
  call_gateway audio_base64 seg config model w = (r, w') ->
  exists sent, posts w' = posts w ++ sent
    /\ Forall (fun b => retry_body audio_base64 seg config model = Ok b) sent
    /\ (forall body, retry_body audio_base64 seg config model = Ok body ->
         1 <= http_retries config -> exists rest, sent = body :: rest)
    /\ store w' = store w /\ seen w' = seen w /\ ticks w' = ticks w.
Proof.
  unfold call_gateway. destruct (retry_body audio_base64 seg config model) as [body|e] eqn:Hb.
  - intros H. unfold _post_with_retries in H.
    destruct (attempts env _ _ body None w) as [r0 w0] eqn:Ha.
    destruct (attempts_posts _ _ _ _ _ _ _ Ha) as (k & Hp & _ & Hpos & Hs & Hn & Ht).
    assert (w0 = w') by (destruct r0; now inversion H). subst w0.
    exists (repeat body k). split; [exact Hp|]. split.
    + apply Forall_forall. intros b Hin. apply list_elem_of_In, repeat_spec in Hin.
      now subst.
    + split; [|auto]. intros body' Hbody Hretries. inversion Hbody; subst body'.
      destruct k as [|k]; [|cbn; eauto]. exfalso.
      assert (0 < Z.to_nat (http_retries config))%nat by lia.
      specialize (Hpos H0). lia.
  - unfold ret. intros H. inversion H; subst. exists []. rewrite app_nil_r.
    repeat split; auto. intros body Hbody. discriminate.
Qed.

Definition sent_for (audio_base64 : pystr) (config : PipelineConfig) (seg : pydict)
    (body : json) : Prop :=
  marked_low seg = true
  /\ exists model, retry_body audio_base64 seg config model = Ok body
       /\ (model = medium \/ (model = large /\ retry_with_large config = true)).

Lemma retry_one_props (audio_base64 : pystr) (config : PipelineConfig) (seg : pydict)
    (w : World) :
  exists out w',
    retry_one audio_base64 config seg w = (Ok out, w')
    /\ (marked_low seg = false -> out = seg)
    /\ outcome config seg out
    /\ exists sent, posts w' = posts w ++ sent
         /\ Forall (sent_for audio_base64 config seg) sent
         /\ (marked_low seg = true -> 1 <= http_retries config ->
             forall body, retry_body audio_base64 seg config medium = Ok body ->
             exists rest, sent = body :: rest)
         /\ store w' = store w /\ seen w' = seen w /\ ticks w' = ticks w.
Proof.
  unfold retry_one. destruct (marked_low seg) eqn:Hlow.
  2:{ exists seg, w. unfold ret. split; [reflexivity|]. split; [auto|].
      split; [now left|]. exists []. rewrite app_nil_r. repeat split; auto; discriminate. }
  unfold bindM.
  destruct (call_gateway_total audio_base64 seg config medium w) as (a & w1 & Ha).
  rewrite Ha.
  destruct (call_gateway_posts _ _ _ _ _ _ _ Ha) as (s1 & Hp1 & Hf1 & Hfirst & Hs1 & Hn1 & Ht1).
  assert (Hsent_for : forall model,
    model = medium \/ (model = large /\ retry_with_large config = true) ->
    forall l, Forall (fun b => retry_body audio_base64 seg config model = Ok b) l ->
    Forall (sent_for audio_base64 config seg) l).
  { intros model Hm l Hl. eapply Forall_impl; [exact Hl|]. intros b Hb.
    split; [exact Hlow|]. exists model. auto. }
  pose proof (Hsent_for medium (or_introl eq_refl) s1 Hf1) as Hmed.
  assert (HB : exists out w',
    strategy_B audio_base64 config seg w1 = (Ok out, w')
    /\ outcome config seg out
    /\ exists s2, posts w' = posts w1 ++ s2
         /\ Forall (sent_for audio_base64 config seg) s2
         /\ store w' = store w1 /\ seen w' = seen w1 /\ ticks w' = ticks w1).
  { unfold strategy_B. destruct (retry_with_large config) eqn:Hlarge.
    - unfold bindM.
      destruct (call_gateway_total audio_base64 seg config large w1) as (b & w2 & Hb).
      rewrite Hb.
      destruct (call_gateway_posts _ _ _ _ _ _ _ Hb) as (s2 & Hp2 & Hf2 & _ & Hs2 & Hn2 & Ht2).
      eexists. exists w2. unfold ret. split; [reflexivity|]. split.
      + destruct b as [best|]; [right; right; eauto | now left].
      + exists s2. repeat split; auto.
        exact (Hsent_for large (or_intror (conj eq_refl eq_refl)) s2 Hf2).
    - exists seg, w1. unfold ret. split; [reflexivity|]. split; [now left|].
      exists []. rewrite app_nil_r. repeat split; auto. }
  assert (Hdone : forall w',
    (exists s2, posts w' = posts w1 ++ s2
       /\ Forall (sent_for audio_base64 config seg) s2
       /\ store w' = store w1 /\ seen w' = seen w1 /\ ticks w' = ticks w1) ->
    exists sent, posts w' = posts w ++ sent
      /\ Forall (sent_for audio_base64 config seg) sent
      /\ (true = true -> 1 <= http_retries config ->
          forall body, retry_body audio_base64 seg config medium = Ok body ->
          exists rest, sent = body :: rest)
      /\ store w' = store w /\ seen w' = seen w /\ ticks w' = ticks w).
  { intros w' (s2 & Hp2 & Hf2 & Hs2 & Hn2 & Ht2).
    exists (s1 ++ s2). rewrite Hp2, Hp1, <- app_assoc.
    split; [reflexivity|]. split; [now apply Forall_app|]. split.
    - intros _ Hr body Hbody. destruct (Hfirst body Hbody Hr) as [rest ->].
      exists (rest ++ s2). reflexivity.
    - repeat split; congruence. }
  destruct a as [best|].
  - destruct (still_low best) eqn:Hstill.
    + destruct HB as (out & w' & Hrun & Hout & Hsent).
      exists out, w'. split; [exact Hrun|]. split; [discriminate|]. split; [exact Hout|].
      exact (Hdone w' Hsent).
    + exists (retried seg best "medium"), w1. unfold ret.
      split; [reflexivity|]. split; [discriminate|].
      split; [right; left; eauto|].
      apply (Hdone w1). exists []. rewrite app_nil_r.
      repeat split; auto.
  - destruct HB as (out & w' & Hrun & Hout & Hsent).
    exists out, w'. split; [exact Hrun|]. split; [discriminate|]. split; [exact Hout|].
    exact (Hdone w' Hsent).
Qed.

Lemma retry_each_props (audio_base64 : pystr) (config : PipelineConfig) :
  forall (segs : list pydict) (w : World),
  exists out w',
    retry_each audio_base64 config segs w = (Ok out, w')
    /\ Forall2 (fun seg o => (marked_low seg = false -> o = seg) /\ outcome config seg o)
         segs out
    /\ exists sent, posts w' = posts w ++ sent
         /\ Forall (is_retry_request audio_base64 config segs) sent
         /\ (forall seg body, In seg segs -> marked_low seg = true ->
             1 <= http_retries config ->
             retry_body audio_base64 seg config medium = Ok body -> In body sent)
         /\ store w' = store w /\ seen w' = seen w /\ ticks w' = ticks w.
Proof.
  induction segs as [|seg rest IH]; intros w.
  - exists [], w. split; [reflexivity|]. split; [constructor|].
    exists []. rewrite app_nil_r. repeat split; auto; try (intros seg body []).
  - destruct (retry_one_props audio_base64 config seg w)
      as (o & w1 & Hone & Hkeep & Hout & s1 & Hp1 & Hf1 & Hfirst & Hs1 & Hn1 & Ht1).
    destruct (IH w1) as (out & w2 & Hrest & Hall & s2 & Hp2 & Hf2 & Hin2 & Hs2 & Hn2 & Ht2).
    exists (o :: out), w2. cbn [retry_each]. unfold bindM. rewrite Hone, Hrest.
    split; [reflexivity|]. split; [constructor; auto|].
    exists (s1 ++ s2). rewrite Hp2, Hp1, <- app_assoc. split; [reflexivity|].
    split; [|split].
    + apply Forall_app. split.
      * eapply Forall_impl; [exact Hf1|]. intros b (Hlow & model & Hb & Hm).
        exists seg, model. repeat split; auto. now left.
      * eapply Forall_impl; [exact Hf2|]. intros b (seg' & model & Hin & Hlow & Hb & Hm).
        exists seg', model. repeat split; auto. now right.
    + intros seg' body [<- | Hin] Hlow Hr Hbody.
      * destruct (Hfirst Hlow Hr body Hbody) as [rest' ->]. now left.
      * apply in_or_app. right. eauto.
    + repeat split; congruence.
Qed.

Lemma retried_fields (seg best : pydict) (name : string) :
  retried seg best name !! "retried" = Some (JBool true)
  /\ retried seg best name !! "retry_model" = Some (JStr (py name))
  /\ forall k v, best !! k = Some v -> k <> "retried" -> k <> "retry_model" ->
       retried seg best name !! k = Some v.
Proof.
  unfold retried, merge. split; [|split].
  - rewrite lookup_insert_ne by discriminate. apply lookup_insert_eq.
  - apply lookup_insert_eq.
  - intros k v Hk H1 H2. rewrite !lookup_insert_ne by congruence.
    now apply lookup_union_Some_l.
Qed.
End Stage.

(** A gateway that is down, a gateway that answers every request with one
    confident segment, and a segment marked low-confidence. *)
Definition silent : Env :=
  {| db := Re.latin1;
     post := fun _ _ _ => Transport;
     detect_langs := fun _ _ => Raise LangDetectException;
     diarize := fun segs _ => Ok segs;
     generate_summary := fun _ _ _ => Ok JNull;
     utcnow := fun _ => py "2026-01-01T00:00:00+00:00";
     str_exn := fun _ => py "error";
     SESSIONS_DIR := py "/app/transcriptions/sessions" |}.

Definition better : pydict :=
  <["text" := JStr (py "hej alla")]> (<["low_confidence" := JBool false]> ∅).

Definition helpful : Env :=
  {| db := Re.latin1;
     post := fun _ _ _ =>
       Responded (Some (JObj (<["segments" := JArr [JObj better]]> ∅)));
     detect_langs := fun _ _ => Raise LangDetectException;
     diarize := fun segs _ => Ok segs;
     generate_summary := fun _ _ _ => Ok JNull;
     utcnow := fun _ => py "2026-01-01T00:00:00+00:00";
     str_exn := fun _ => py "error";
     SESSIONS_DIR := py "/app/transcriptions/sessions" |}.

Definition weak : pydict :=
  <["start" := JFloat 0]>
    (<["end" := JFloat 1.5]>
       (<["text" := JStr (py "hej ala")]>
          (<["avg_logprob" := JFloat (-1.2)]>
             (<["compression_ratio" := JFloat 1]>
                (<["low_confidence" := JBool true]> ∅))))).

Definition fine : pydict :=
  <["start" := JFloat 1.5]>
    (<["end" := JFloat 2]>
       (<["text" := JStr (py "tack")]> (<["low_confidence" := JBool false]> ∅))).

Definition blank : World :=
  {| store := {| jobs := ∅; dirs := ∅; files := ∅; read_only := ∅ |};
     seen := []; posts := []; ticks := 0 |}.

End RetryFacts.

Lemma retry_body_fields (audio_base64 : pystr) (seg : pydict)
    (config : Worker.PipelineConfig) (model : pystr) (body : json) :
  Pipeline.retry_body audio_base64 seg config model = Ok body ->
  exists m, body = JObj m
    /\ m !! "model" = Some (JStr model)
    /\ m !! "beam_size" = Some (JInt (Worker.retry_beam_size config))
    /\ m !! "audio_base64" = Some (JStr audio_base64)
    /\ m !! "start" = seg !! "start"
    /\ m !! "end" = seg !! "end".
Proof.
  unfold Pipeline.retry_body, Pipeline.item.
  destruct (seg !! "start") as [a|]; [|discriminate].
  destruct (seg !! "end") as [b|]; [|discriminate].
  cbn [bindR]. intros H. inversion H; subst. eexists. split; [reflexivity|].
  repeat split; now rewrite ?lookup_insert_ne by discriminate; rewrite lookup_insert_eq.
Qed.

(** C3, as stated, fails: without [audio_base64] in the job input the
    stage meets a segment marked low-confidence, sends nothing to a
    gateway that would have answered, and returns the segment as it
    was. *)
Lemma retry_stage_sends_nothing_without_audio :
  Pipeline.marked_low RetryFacts.weak = true
  /\ Worker._audio_base64 Worker.default_config = None
  /\ Pipeline.retry_low_confidence RetryFacts.helpful [RetryFacts.weak]
       Worker.default_config RetryFacts.blank
     = (Ok [RetryFacts.weak], RetryFacts.blank)
  /\ Worker.posts RetryFacts.blank = [].
Proof. repeat split; vm_compute; reflexivity. Qed.

(** C3, amended.  When the job input carries a non-empty [audio_base64],
    the retry stage goes through the segments in order.  A segment not
    marked low-confidence is kept and nothing is sent for it.  For a
    segment marked low-confidence, Strategy A requests a retry from the
    gateway with the medium model at the configured retry beam size (sent
    with the configured HTTP retries) and replaces the segment only if a
    first retry segment comes back and is not low-confidence; otherwise,
    exactly when [retry_with_large] is set, Strategy B requests a retry
    with the large model and replaces the segment whenever a first retry
    segment comes back.  A replaced segment is the old one overlaid with
    the retry segment, [retried = True] and [retry_model] "medium" or
    "large".  Every body the stage posts is such a request for a segment
    marked low-confidence, and with at least one HTTP attempt configured
    the medium request of every such segment is posted. *)
Theorem retry_stage_with_audio (env : Pipeline.Env) (segs : list pydict)
    (config : Worker.PipelineConfig) (c : N) (audio : pystr) (w : Worker.World) :
  Worker._audio_base64 config = Some (c :: audio) ->
  Pipeline.retry_low_confidence env segs config w
    = RetryFacts.retry_each env (c :: audio) config segs w
  /\ (exists out w' sent,
        Pipeline.retry_low_confidence env segs config w = (Ok out, w')
        /\ Forall2 (fun seg o => (Pipeline.marked_low seg = false -> o = seg)
                                 /\ RetryFacts.outcome config seg o) segs out
        /\ Worker.posts w' = Worker.posts w ++ sent
        /\ Forall (RetryFacts.is_retry_request (c :: audio) config segs) sent
        /\ (forall seg body,
              In seg segs -> Pipeline.marked_low seg = true ->
              1 <= Worker.http_retries config ->
              Pipeline.retry_body (c :: audio) seg config Pipeline.medium = Ok body ->
              In body sent))
  /\ (forall seg best name,
        RetryFacts.retried seg best name !! "retried" = Some (JBool true)
        /\ RetryFacts.retried seg best name !! "retry_model" = Some (JStr (py name)))
  /\ (forall seg model body,
        Pipeline.retry_body (c :: audio) seg config model = Ok body ->
        exists m, body = JObj m
          /\ m !! "model" = Some (JStr model)
          /\ m !! "beam_size" = Some (JInt (Worker.retry_beam_size config))).
Proof.
  intros Haudio.
  pose proof (RetryFacts.retry_stage_is_retry_each env segs config c audio w Haudio) as Heq.
  split; [exact Heq|]. split; [|split].
  - destruct (RetryFacts.retry_each_props env (c :: audio) config segs w)
      as (out & w' & Hrun & Hall & sent & Hp & Hf & Hin & _).
    exists out, w', sent. rewrite Heq. auto.
  - intros seg best name.
    destruct (RetryFacts.retried_fields seg best name) as (A & B & _). auto.
  - intros seg model body Hb.
    destruct (retry_body_fields _ _ _ _ _ Hb) as (m & A & B & C & _). eauto.
Qed.

(** C3, amended, on two segments with a gateway that answers each request
    with one confident segment: the weak segment is replaced through
    Strategy A and marked as retried with the medium model, the other
    segment is kept, and exactly one request is posted. *)
Lemma retry_stage_with_audio_witness :
  let config := Worker.set_audio Worker.default_config (Some (py "UklGRg==")) in
  exists w' body,
    Pipeline.retry_low_confidence RetryFacts.helpful [RetryFacts.weak; RetryFacts.fine]
      config RetryFacts.blank
    = (Ok [RetryFacts.retried RetryFacts.weak RetryFacts.better "medium"; RetryFacts.fine],
       w')
    /\ Worker.posts w' = [JObj body]
    /\ body !! "model" = Some (JStr Pipeline.medium)
    /\ body !! "beam_size" = Some (JInt 10)
    /\ RetryFacts.retried RetryFacts.weak RetryFacts.better "medium" !! "retried"
       = Some (JBool true).
Proof.
  cbv zeta.
  destruct (retry_stage_with_audio RetryFacts.helpful [RetryFacts.weak; RetryFacts.fine]
              (Worker.set_audio Worker.default_config (Some (py "UklGRg==")))
              85%N (py "klGRg==") RetryFacts.blank eq_refl)
    as (Heq & _ & Hfields & _).
  eexists. eexists. split; [rewrite Heq; vm_compute; reflexivity|].
  split; [vm_compute; reflexivity|]. split; [vm_compute; reflexivity|].
  split; [vm_compute; reflexivity|]. apply Hfields.
Defined.

(* ===================================================================== *)
(** * The pipeline runner *)
(* ===================================================================== *)

Module RunnerFacts.
Import Worker Pipeline.

(** *** Relations that a computation keeps *)

Section Keeps.
Variable R : World -> World -> Prop.
Hypothesis R_refl : forall w, R w w.
Hypothesis R_trans : forall a b c, R a b -> R b c -> R a c.

Definition keeps {A} (m : M A) : Prop := forall w r w', m w = (r, w') -> R w w'.

Lemma keeps_ret {A} (a : A) : keeps (ret a).
Proof. intros w r w' H. inversion H; subst. apply R_refl. Qed.

Lemma keeps_lift {A} (x : result A) : keeps (lift x).
Proof. intros w r w' H. inversion H; subst. apply R_refl. Qed.

Lemma keeps_bind {A B} (m : M A) (k : A -> M B) :
  keeps m -> (forall a, keeps (k a)) -> keeps (bindM m k).
Proof.
  intros Hm Hk w r w' H. unfold bindM in H.
  destruct (m w) as [[a|e] w1] eqn:Hmw.
  - eapply R_trans; [exact (Hm _ _ _ Hmw)|exact (Hk _ _ _ _ H)].
  - inversion H; subst. exact (Hm _ _ _ Hmw).
Qed.

Lemma keeps_try {A} (m : M A) (h : exn -> M A) :
  keeps m -> (forall e, keeps (h e)) -> keeps (try_except m h).
Proof.
  intros Hm Hh w r w' H. unfold try_except in H.
  destruct (m w) as [[a|e] w1] eqn:Hmw.
  - inversion H; subst. exact (Hm _ _ _ Hmw).
  - eapply R_trans; [exact (Hm _ _ _ Hmw)|exact (Hh _ _ _ _ H)].
Qed.
End Keeps.

(** Nothing is posted. *)
Definition silent (w w' : World) : Prop := posts w' = posts w.

(** The sessions tree stays as it is and no job row disappears; every
    state that became visible has the files of the start. *)
Definition steady (w w' : World) : Prop :=
  files (store w') = files (store w)
  /\ dirs (store w') = dirs (store w)
  /\ read_only (store w') = read_only (store w)
  /\ (forall j, is_Some (jobs (store w) !! j) -> is_Some (jobs (store w') !! j))
  /\ exists new, seen w' = seen w ++ new
       /\ Forall (fun s => files s = files (store w)) new.

Lemma silent_refl (w : World) : silent w w.
Proof. reflexivity. Qed.

Lemma silent_trans (a b c : World) : silent a b -> silent b c -> silent a c.
Proof. unfold silent. congruence. Qed.

Lemma steady_refl (w : World) : steady w w.
Proof.
  repeat split; auto. exists []. rewrite app_nil_r. split; [reflexivity|constructor].
Qed.

Lemma steady_trans (a b c : World) : steady a b -> steady b c -> steady a c.
Proof.
  intros (F1 & D1 & L1 & J1 & n1 & S1 & A1) (F2 & D2 & L2 & J2 & n2 & S2 & A2).
  repeat split; try congruence; [auto|].
  exists (n1 ++ n2). rewrite S2, S1, <- app_assoc. split; [reflexivity|].
  apply Forall_app. split; [exact A1|].
  eapply Forall_impl; [exact A2|]. intros s Hs. congruence.
Qed.

Section WithEnv.
Variable env : Env.

(** *** What one [update_job] does *)

Definition updated (t : pystr) (status current_step : option pystr)
    (result_data : option pydict) (error : option pystr) (job_id : pystr) (s : Store)
    : Store :=
  {| jobs := alter (update_row t status current_step result_data error) job_id (jobs s);
     dirs := dirs s; files := files s; read_only := read_only s |}.

Lemma update_job_runs (job_id : pystr) (status current_step : option pystr)
    (result_data : option pydict) (error : option pystr) (w : World) :
  update_job env job_id status current_step result_data error w
  = (Ok tt,
     let s := updated (utcnow env (ticks w)) status current_step result_data error job_id
                (store w) in
     {| store := s; seen := seen w ++ [s]; posts := posts w; ticks := S (ticks w) |}).
Proof. reflexivity. Qed.

Lemma update_job_silent (job_id : pystr) (status current_step : option pystr)
    (result_data : option pydict) (error : option pystr) :
  keeps silent (update_job env job_id status current_step result_data error).
Proof. intros w r w' H. rewrite update_job_runs in H. now inversion H. Qed.

Lemma update_job_steady (job_id : pystr) (status current_step : option pystr)
    (result_data : option pydict) (error : option pystr) :
  keeps steady (update_job env job_id status current_step result_data error).
Proof.
  intros w r w' H. rewrite update_job_runs in H. inversion H; subst; clear H.
  unfold steady, updated. cbn. repeat split; auto.
  - intros j [row Hrow]. destruct (decide (job_id = j)) as [->|Hne].
    + rewrite lookup_alter_eq, Hrow. cbn. eauto.
    + rewrite lookup_alter_ne by exact Hne. eauto.
  - eexists. split; [reflexivity|]. repeat constructor.
Qed.

Lemma when_keeps (R : World -> World -> Prop) {A} (b : bool) (step : string)
    (job_id : pystr) (m : M A) (skip : A) :
  (forall w, R w w) -> (forall a b c, R a b -> R b c -> R a c) ->
  (forall st cs rd er, keeps R (update_job env job_id st cs rd er)) ->
  keeps R m -> keeps R (when env b step job_id m skip).
Proof.
  intros Hrefl Htrans Hupd Hm. unfold when. destruct b.
  - apply keeps_bind; auto.
  - now apply keeps_ret.
Qed.

(** *** The stages *)

Lemma retry_keeps_store (segs : list pydict) (config : PipelineConfig) (w : World) r w' :
  retry_low_confidence env segs config w = (r, w') ->
  store w' = store w /\ seen w' = seen w.
Proof.
  destruct (_audio_base64 config) as [[|c audio]|] eqn:Haudio.
  - unfold retry_low_confidence. rewrite Haudio. intros H. now inversion H.
  - rewrite (RetryFacts.retry_stage_is_retry_each env segs config c audio w Haudio).
    destruct (RetryFacts.retry_each_props env (c :: audio) config segs w)
      as (out & w1 & Hrun & _ & sent & _ & _ & _ & Hs & Hn & _).
    rewrite Hrun. intros H. inversion H; subst. auto.
  - unfold retry_low_confidence. rewrite Haudio. intros H. now inversion H.
Qed.

Lemma retry_steady (segs : list pydict) (config : PipelineConfig) :
  keeps steady (retry_low_confidence env segs config).
Proof.
  intros w r w' H. destruct (retry_keeps_store _ _ _ _ _ H) as [Hs Hn].
  unfold steady. rewrite Hs, Hn. repeat split; auto.
  exists []. rewrite app_nil_r. split; [reflexivity|constructor].
Qed.

Lemma retry_without_audio (segs : list pydict) (config : PipelineConfig)
    (audio : option pystr) (w : World) :
  truthy_str audio = false ->
  retry_low_confidence env segs (set_audio config audio) w = (Ok segs, w).
Proof.
  intros H. unfold retry_low_confidence. cbn [_audio_base64 set_audio].
  destruct audio as [[|c a]|]; [reflexivity|discriminate|reflexivity].
Qed.

Lemma after_retry_keeps (R : World -> World -> Prop) (job_id : pystr)
    (input_data : JobInput) (config : PipelineConfig) (segs : list pydict) :
  (forall w, R w w) -> (forall a b c, R a b -> R b c -> R a c) ->
  (forall st cs rd er, keeps R (update_job env job_id st cs rd er)) ->
  keeps R (after_retry env job_id input_data config segs).
Proof.
  intros Hrefl Htrans Hupd. unfold after_retry.
  repeat (apply keeps_bind; [assumption| |intros ?]);
    try (apply when_keeps; auto; apply keeps_lift; assumption).
  now apply keeps_ret.
Qed.

Lemma process_steady (job_id : pystr) (input_data : JobInput) (config : PipelineConfig) :
  keeps steady (process env job_id input_data config).
Proof.
  unfold process.
  apply keeps_bind; [exact steady_trans|apply update_job_steady|intros _].
  apply keeps_bind; [exact steady_trans|apply update_job_steady|intros _].
  apply keeps_bind; [exact steady_trans|apply keeps_lift; exact steady_refl|intros segs].
  apply keeps_bind; [exact steady_trans| |intros segs'].
  - apply when_keeps; [exact steady_refl|exact steady_trans| |apply retry_steady].
    intros; apply update_job_steady.
  - apply after_retry_keeps; [exact steady_refl|exact steady_trans|].
    intros; apply update_job_steady.
Qed.

(** The pipeline when the input has no audio: the retry stage only
    records its step. *)
Definition process_without_retry_calls (job_id : pystr) (input_data : JobInput)
    (config : PipelineConfig) : M pydict :=
  run! update_job env job_id (Some (py "processing")) (Some (py "init")) None None in
  run! update_job env job_id None (Some (py "confidence")) None None in
  let! segs := lift (Confidence.evaluate_confidence (segments input_data)) in
  run! update_job env job_id None (Some (py "retry")) None None in
  after_retry env job_id input_data config segs.

Lemma process_without_audio (job_id : pystr) (input_data : JobInput)
    (config : PipelineConfig) (w : World) :
  truthy_str (audio_base64 input_data) = false ->
  retry_enabled config = true ->
  process env job_id input_data config w
  = process_without_retry_calls job_id input_data config w.
Proof.
  intros Haudio Hon. unfold process, process_without_retry_calls, when.
  rewrite Hon. unfold bindM.
  rewrite !update_job_runs. cbv zeta.
  unfold lift. destruct (Confidence.evaluate_confidence _) as [segs|e]; [|reflexivity].
  rewrite update_job_runs. cbv zeta. now rewrite retry_without_audio.
Qed.

Lemma process_without_retry_calls_silent (job_id : pystr) (input_data : JobInput)
    (config : PipelineConfig) :
  keeps silent (process_without_retry_calls job_id input_data config).
Proof.
  unfold process_without_retry_calls.
  apply keeps_bind; [exact silent_trans|apply update_job_silent|intros _].
  apply keeps_bind; [exact silent_trans|apply update_job_silent|intros _].
  apply keeps_bind; [exact silent_trans|apply keeps_lift; exact silent_refl|intros segs].
  apply keeps_bind; [exact silent_trans|apply update_job_silent|intros _].
  apply after_retry_keeps; [exact silent_refl|exact silent_trans|].
  intros; apply update_job_silent.
Qed.

(** *** The tail of the run: what is written, and in which order *)

Definition session_json (sid : pystr) : pystr := session_file env sid (py "session.json").

Definition result_path (sid : pystr) (input_data : JobInput) : pystr :=
  path_join (path_join (SESSIONS_DIR env) sid) (result_filename (context_profile input_data)).

Definition job_status (s : Store) (job_id : pystr) : option pystr :=
  status <$> jobs s !! job_id.

(** session.json records the job as completed. *)
Definition marks_completed (s : Store) (sid job_id : pystr) : Prop :=
  exists meta,
    files s !! session_json sid = Some (JObj meta)
    /\ meta !! "processing_status" = Some (JStr (py "completed"))
    /\ meta !! "job_id" = Some (JStr job_id).

(** [os.path.join] on a name that is not absolute appends it to a prefix
    that the directory alone decides. *)
Definition joined_prefix (a : pystr) : pystr :=
  match rev a with
  | [] => []
  | c :: _ => if (c =? 47)%N then a else a ++ [47%N]
  end.

Lemma path_join_relative (a : pystr) (c : N) (b : pystr) :
  c <> 47%N -> path_join a (c :: b) = joined_prefix a ++ c :: b.
Proof.
  intros Hc. unfold path_join, joined_prefix.
  apply N.eqb_neq in Hc. rewrite Hc.
  destruct (rev a) as [|x r]; [reflexivity|].
  destruct (x =? 47)%N; [reflexivity|]. now rewrite <- app_assoc.
Qed.

Lemma result_filename_relative (context : option pystr) :
  exists c b, result_filename context = c :: b /\ c <> 47%N /\ c <> 115%N.
Proof.
  destruct context as [[|x name]|]; cbn; eexists; eexists;
    (split; [reflexivity|]); split; discriminate.
Qed.

Lemma session_json_is_not_the_result (sid : pystr) (input_data : JobInput) :
  session_json sid <> result_path sid input_data.
Proof.
  unfold session_json, session_file, result_path.
  destruct (result_filename_relative (context_profile input_data))
    as (c & b & -> & Hc & Hs).
  change (py "session.json") with (115%N :: py "ession.json").
  rewrite !path_join_relative by (discriminate || assumption).
  intros H. apply app_inv_head in H. inversion H. congruence.
Qed.

(** A state written by [_update_session_status]. *)
Definition status_written (sid status : pystr) (before s : Store) : Prop :=
  jobs s = jobs before
  /\ (forall p, p <> session_json sid -> files s !! p = files before !! p)
  /\ exists meta, files s !! session_json sid = Some (JObj meta)
       /\ meta !! "processing_status" = Some (JStr status).

Lemma update_session_status_cases (sid status job_id : pystr) (error : option pystr)
    (w : World) :
  exists w' written,
    _update_session_status env sid status job_id error w = (Ok tt, w')
    /\ posts w' = posts w
    /\ jobs (store w') = jobs (store w)
    /\ seen w' = seen w ++ written
    /\ Forall (status_written sid status (store w)) written.
Proof.
  unfold _update_session_status, bindM, read, now, commit, ret.
  fold (session_json sid). cbn [store seen posts ticks].
  destruct (files (store w) !! session_json sid) as [[| | | | | |meta]|] eqn:Hmeta;
    try (exists w, []; rewrite app_nil_r; repeat split; auto; fail).
  destruct (bool_decide (session_json sid ∈ read_only (store w))).
  - eexists. exists []. cbn. rewrite app_nil_r. repeat split; auto.
  - eexists. eexists. cbn. split; [reflexivity|]. split; [reflexivity|].
    split; [reflexivity|]. split; [reflexivity|]. constructor; [|constructor].
    unfold status_written, put_file. cbn. split; [reflexivity|]. split.
    + intros p' Hp'. now rewrite lookup_insert_ne by congruence.
    + rewrite lookup_insert_eq. eexists. split; [reflexivity|].
      destruct error as [[|c e]|];
        rewrite ?lookup_insert_ne by discriminate; apply lookup_insert_eq.
Qed.

(** A state written by [_write_processed_result]. *)
Definition result_written (sid : pystr) (input_data : JobInput) (before s : Store) : Prop :=
  jobs s = jobs before /\ is_Some (files s !! result_path sid input_data).

Lemma write_processed_result_cases (sid job_id : pystr) (result : pydict)
    (input_data : JobInput) (w : World) :
  exists w' written,
    _write_processed_result env sid job_id result (context_profile input_data) w
      = (Ok tt, w')
    /\ posts w' = posts w
    /\ jobs (store w') = jobs (store w)
    /\ seen w' = seen w ++ written
    /\ Forall (result_written sid input_data (store w)) written.
Proof.
  unfold _write_processed_result, bindM, read, commit, ret.
  fold (result_path sid input_data). cbn [store seen posts ticks].
  destruct (bool_decide (path_join (SESSIONS_DIR env) sid ∈ dirs (store w)));
    cbn [negb]; [|exists w, []; rewrite app_nil_r; repeat split; auto].
  destruct (bool_decide (result_path sid input_data ∈ read_only (store w)));
    [exists w, []; rewrite app_nil_r; repeat split; auto|].
  set (s3 := put_file (result_path sid input_data) (JObj result) (store w)).
  set (w3 := {| store := s3; seen := seen w ++ [s3]; posts := posts w; ticks := ticks w |}).
  destruct (update_session_status_cases sid (py "completed") job_id None w3)
    as (w' & written & Hrun & Hposts & Hjobs & Hseen & Hall).
  exists w', (s3 :: written). rewrite Hrun. split; [reflexivity|].
  split; [exact Hposts|]. split; [exact Hjobs|].
  split; [rewrite Hseen; cbn; now rewrite <- app_assoc|].
  assert (H3 : is_Some (files s3 !! result_path sid input_data)).
  { subst s3. unfold put_file. cbn. rewrite lookup_insert_eq. eauto. }
  constructor; [split; [reflexivity|exact H3]|].
  eapply Forall_impl; [exact Hall|]. intros s (Hj & Hf & _). split; [exact Hj|].
  rewrite Hf; [exact H3|]. apply not_eq_sym, session_json_is_not_the_result.
Qed.

(** The tail of a successful run: the job row is marked completed first,
    then the result file and the session status are written. *)
Lemma finish_cases (job_id : pystr) (input_data : JobInput) (result : pydict) (w : World) :
  exists w' completed written,
    finish env job_id input_data result w = (Ok tt, w')
    /\ posts w' = posts w
    /\ seen w' = seen w ++ completed :: written
    /\ files completed = files (store w)
    /\ (is_Some (jobs (store w) !! job_id) ->
        job_status completed job_id = Some (py "completed")
        /\ job_status (store w') job_id = Some (py "completed"))
    /\ jobs (store w') = jobs completed
    /\ match session_id input_data with
       | Some (c :: sid) =>
           Forall (result_written (c :: sid) input_data completed) written
       | _ => written = []
       end.
Proof.
  unfold finish, bindM. rewrite update_job_runs. cbv zeta.
  set (s2 := updated _ _ _ _ _ _ _).
  set (w2 := {| store := s2; seen := seen w ++ [s2]; posts := posts w;
                ticks := S (ticks w) |}).
  assert (Hstatus : is_Some (jobs (store w) !! job_id) ->
                    job_status s2 job_id = Some (py "completed")).
  { intros [row Hrow]. subst s2. unfold job_status, updated. cbn.
    now rewrite lookup_alter_eq, Hrow. }
  destruct (session_id input_data) as [[|c sid]|] eqn:Hsid.
  - exists w2, s2, []. unfold ret. repeat split; auto.
  - destruct (write_processed_result_cases (c :: sid) job_id result input_data w2)
      as (w' & written & Hrun & Hposts & Hjobs & Hseen & Hall).
    exists w', s2, written. rewrite Hrun. split; [reflexivity|]. split; [exact Hposts|].
    split; [rewrite Hseen; cbn; now rewrite <- app_assoc|]. split; [reflexivity|].
    split; [|split; [exact Hjobs|exact Hall]].
    intros Hrow. split; [now apply Hstatus|]. unfold job_status. rewrite Hjobs.
    now apply Hstatus.
  - exists w2, s2, []. unfold ret. repeat split; auto.
Qed.
End WithEnv.
End RunnerFacts.

Module RunnerFixtures.
Import Worker Pipeline.

(** A job on the session [s1], without audio and without a context
    profile, its row in the jobs table, and the session directory as the
    ingest left it. *)
Definition job : JobInput :=
  {| segments := [RetryFacts.fine]; language := py "sv"; audio_base64 := None;
     audio_path := Some (py "/app/transcriptions/sessions/s1/audio.wav");
     session_id := Some (py "s1"); context_profile := None |}.

Definition row : JobRow :=
  {| status := py "running"; current_step := py "starting"; result_data := None;
     error := []; updated_at := py "2026-01-01T00:00:00+00:00" |}.

Definition submitted_meta : pydict :=
  <["session_id" := JStr (py "s1")]>
    (<["job_id" := JStr (py "j1")]>
       (<["processing_status" := JStr (py "submitted")]> ∅)).

Definition start : World :=
  {| store :=
       {| jobs := {[ py "j1" := row ]};
          dirs := {[ py "/app/transcriptions/sessions/s1" ]};
          files := {[ py "/app/transcriptions/sessions/s1/session.json"
                      := JObj submitted_meta ]};
          read_only := ∅ |};
     seen := []; posts := []; ticks := 0 |}.

End RunnerFixtures.

(** C1, as stated, fails: in the run of a job with a session there is a
    visible state in which the job row already says "completed" and
    processed.json is not in the session directory; the file appears only
    in a later state. *)
Lemma job_row_completed_before_result_file :
  let w' := snd (Pipeline.run_pipeline RetryFacts.silent (py "j1") RunnerFixtures.job
                   Worker.default_config RunnerFixtures.start) in
  exists s,
    Worker.seen w' !! 6%nat = Some s
    /\ RunnerFacts.job_status s (py "j1") = Some (py "completed")
    /\ Worker.files s !! py "/app/transcriptions/sessions/s1/processed.json" = None
    /\ RunnerFacts.result_path RetryFacts.silent (py "s1") RunnerFixtures.job
       = py "/app/transcriptions/sessions/s1/processed.json"
    /\ is_Some (Worker.files (Worker.store w')
                  !! py "/app/transcriptions/sessions/s1/processed.json").
Proof.
  cbv zeta. eexists. split; [vm_compute; reflexivity|].
  split; [vm_compute; reflexivity|]. split; [vm_compute; reflexivity|].
  split; [vm_compute; reflexivity|]. vm_compute. eauto.
Qed.

(** C1, amended.  For a job with a session, the job row is marked
    "completed" before the result file is written, and the result file
    (processed.json without a context profile, else
    interpreted_{context}.json) is written before session.json records the
    job as completed.  So in every state that the run makes visible, if
    session.json says [processing_status = "completed"] for this job then
    the result file is in the session directory; and if the result file
    has been written then the job row already says "completed".  The job
    has a row in the jobs table, and session.json does not yet record this
    job as completed when the run starts. *)
Theorem result_file_precedes_session_completed (env : Pipeline.Env) (job_id : pystr)
    (input_data : Worker.JobInput) (config : Worker.PipelineConfig) (w : Worker.World)
    (c : N) (sid : pystr) :
  Worker.session_id input_data = Some (c :: sid) ->
  is_Some (Worker.jobs (Worker.store w) !! job_id) ->
  ~ RunnerFacts.marks_completed env (Worker.store w) (c :: sid) job_id ->
  exists w' new,
    Pipeline.run_pipeline env job_id input_data config w = (Ok tt, w')
    /\ Worker.seen w' = Worker.seen w ++ new
    /\ Forall (fun s =>
         (RunnerFacts.marks_completed env s (c :: sid) job_id ->
          is_Some (Worker.files s !! RunnerFacts.result_path env (c :: sid) input_data))
         /\ (Worker.files s !! RunnerFacts.result_path env (c :: sid) input_data
               <> Worker.files (Worker.store w)
                    !! RunnerFacts.result_path env (c :: sid) input_data ->
             RunnerFacts.job_status s job_id = Some (py "completed"))) new.
Proof.
  intros Hsid Hrow Hnot.
  assert (Hsame : forall s, Worker.files s = Worker.files (Worker.store w) ->
    (RunnerFacts.marks_completed env s (c :: sid) job_id ->
     is_Some (Worker.files s !! RunnerFacts.result_path env (c :: sid) input_data))
    /\ (Worker.files s !! RunnerFacts.result_path env (c :: sid) input_data
          <> Worker.files (Worker.store w)
               !! RunnerFacts.result_path env (c :: sid) input_data ->
        RunnerFacts.job_status s job_id = Some (py "completed"))).
  { intros s Hs. split.
    - intros Hm. exfalso. apply Hnot. unfold RunnerFacts.marks_completed in *.
      now rewrite <- Hs.
    - intros Hne. exfalso. apply Hne. now rewrite Hs. }
  unfold Pipeline.run_pipeline, Worker.try_except, Pipeline.stages, Worker.bindM.
  destruct (Pipeline.process env job_id input_data config w) as [[result|e] w1] eqn:Hp;
    destruct (RunnerFacts.process_steady env job_id input_data config _ _ _ Hp)
      as (Hfiles & _ & _ & Hrows & n1 & Hseen1 & Hall1).
  - destruct (RunnerFacts.finish_cases env job_id input_data result w1)
      as (w' & completed & written & Hrun & _ & Hseen & Hcf & Hst & Hjobs & Hwritten).
    rewrite Hrun. exists w', (n1 ++ completed :: written).
    split; [reflexivity|]. split; [rewrite Hseen, Hseen1; now rewrite <- app_assoc|].
    apply Forall_app. split.
    + eapply Forall_impl; [exact Hall1|]. intros s Hs. now apply Hsame.
    + constructor; [apply Hsame; congruence|].
      rewrite Hsid in Hwritten. eapply Forall_impl; [exact Hwritten|].
      intros s [Hj Hr]. split; [intros _; exact Hr|]. intros _.
      unfold RunnerFacts.job_status. rewrite Hj.
      now apply (Hst (Hrows _ Hrow)).
  - rewrite RunnerFacts.update_job_runs. cbv zeta. rewrite Hsid.
    set (s2 := RunnerFacts.updated _ _ _ _ _ _ _).
    set (w2 := {| Worker.store := s2; Worker.seen := Worker.seen w1 ++ [s2];
                  Worker.posts := Worker.posts w1; Worker.ticks := S (Worker.ticks w1) |}).
    destruct (RunnerFacts.update_session_status_cases env (c :: sid) (py "failed") job_id
                (Some (Pipeline.str_exn env e)) w2)
      as (w' & written & Hrun & _ & _ & Hseen & Hall).
    rewrite Hrun. exists w', (n1 ++ s2 :: written).
    split; [reflexivity|].
    split; [rewrite Hseen; unfold w2; cbn [Worker.seen]; rewrite Hseen1;
            now rewrite <- !app_assoc|].
    apply Forall_app. split.
    + eapply Forall_impl; [exact Hall1|]. intros s Hs. now apply Hsame.
    + constructor; [apply Hsame; exact Hfiles|].
      eapply Forall_impl; [exact Hall|].
      intros s (_ & Hother & meta & Hmeta & Hstatus). split.
      * intros (meta' & Hm' & Hdone & _). exfalso.
        rewrite Hmeta in Hm'. inversion Hm'; subst meta'.
        rewrite Hstatus in Hdone. vm_compute in Hdone. discriminate.
      * intros Hne. exfalso. apply Hne.
        rewrite Hother by (apply not_eq_sym, RunnerFacts.session_json_is_not_the_result).
        change (Worker.files (Worker.store w2)) with (Worker.files (Worker.store w1)).
        now rewrite Hfiles.
Qed.

(** C1, amended, on the run of the counterexample: the states that say
    "completed" in session.json come after processed.json is written. *)
Lemma result_file_precedes_session_completed_witness :
  is_Some (Worker.jobs (Worker.store RunnerFixtures.start) !! py "j1")
  /\ exists w' new,
       Pipeline.run_pipeline RetryFacts.silent (py "j1") RunnerFixtures.job
         Worker.default_config RunnerFixtures.start = (Ok tt, w')
       /\ Worker.seen w' = new
       /\ length new = 9%nat
       /\ Forall (fun s =>
            RunnerFacts.marks_completed RetryFacts.silent s (py "s1") (py "j1") ->
            is_Some (Worker.files s
                       !! RunnerFacts.result_path RetryFacts.silent (py "s1")
                            RunnerFixtures.job)) new.
Proof.
  assert (Hrow : is_Some (Worker.jobs (Worker.store RunnerFixtures.start) !! py "j1"))
    by (vm_compute; eauto).
  split; [exact Hrow|].
  destruct (result_file_precedes_session_completed RetryFacts.silent (py "j1")
              RunnerFixtures.job Worker.default_config RunnerFixtures.start
              115%N (py "1") eq_refl Hrow)
    as (w' & new & Hrun & Hseen & Hall).
  - intros (meta & Hmeta & Hdone & _). vm_compute in Hmeta. inversion Hmeta; subst meta.
    vm_compute in Hdone. discriminate.
  - exists w', new. split; [exact Hrun|]. split; [exact Hseen|]. split.
    + assert (Hw : w' = snd (Pipeline.run_pipeline RetryFacts.silent (py "j1")
                               RunnerFixtures.job Worker.default_config
                               RunnerFixtures.start)) by now rewrite Hrun.
      cbn in Hseen. rewrite <- Hseen, Hw. vm_compute. reflexivity.
    + eapply Forall_impl; [exact Hall|]. intros s [Ha _]. exact Ha.
Defined.

(** C10.  When the retry stage is enabled and the job input carries no
    audio_base64 (absent or null, or the empty string), the retry stage
    returns the list of segments it was given, raises nothing and leaves
    the world as it was, so nothing is posted to the gateway; the run is
    the run of the pipeline in which the retry stage only records its
    step, and the later stages receive the segments of the confidence
    stage.  If those stages raise nothing, the run ends without an error,
    has posted nothing, and the row of the job says "completed". *)
Theorem retry_stage_skipped_without_audio (env : Pipeline.Env) (job_id : pystr)
    (input_data : Worker.JobInput) (config : Worker.PipelineConfig) (w : Worker.World) :
  Pipeline.truthy_str (Worker.audio_base64 input_data) = false ->
  Worker.retry_enabled config = true ->
  (forall segs w0,
     Pipeline.retry_low_confidence env segs
       (Worker.set_audio config (Worker.audio_base64 input_data)) w0 = (Ok segs, w0))
  /\ Pipeline.process env job_id input_data config w
     = RunnerFacts.process_without_retry_calls env job_id input_data config w
  /\ (forall result w1,
        Pipeline.process env job_id input_data config w = (Ok result, w1) ->
        is_Some (Worker.jobs (Worker.store w) !! job_id) ->
        exists w',
          Pipeline.run_pipeline env job_id input_data config w = (Ok tt, w')
          /\ Worker.posts w' = Worker.posts w
          /\ RunnerFacts.job_status (Worker.store w') job_id = Some (py "completed")).
Proof.
  intros Haudio Hon.
  split; [intros segs w0; now apply RunnerFacts.retry_without_audio|].
  split; [now apply RunnerFacts.process_without_audio|].
  intros result w1 Hp Hrow.
  unfold Pipeline.run_pipeline, Worker.try_except, Pipeline.stages, Worker.bindM.
  rewrite Hp.
  destruct (RunnerFacts.process_steady env job_id input_data config _ _ _ Hp)
    as (_ & _ & _ & Hrows & _).
  rewrite RunnerFacts.process_without_audio in Hp by assumption.
  pose proof (RunnerFacts.process_without_retry_calls_silent env job_id input_data
                config _ _ _ Hp) as Hquiet.
  destruct (RunnerFacts.finish_cases env job_id input_data result w1)
    as (w' & completed & written & Hrun & Hposts & _ & _ & Hst & _).
  rewrite Hrun. exists w'. split; [reflexivity|].
  split; [unfold RunnerFacts.silent in Hquiet; congruence|].
  now apply Hst, Hrows.
Qed.

(** C10 on a job submitted without audio: the run completes and has
    posted nothing. *)
Lemma retry_stage_skipped_without_audio_witness :
  Pipeline.truthy_str (Worker.audio_base64 RunnerFixtures.job) = false
  /\ Worker.retry_enabled Worker.default_config = true
  /\ Pipeline.retry_low_confidence RetryFacts.silent [RetryFacts.weak]
       (Worker.set_audio Worker.default_config (Worker.audio_base64 RunnerFixtures.job))
       RunnerFixtures.start
     = (Ok [RetryFacts.weak], RunnerFixtures.start)
  /\ exists w',
       Pipeline.run_pipeline RetryFacts.silent (py "j1") RunnerFixtures.job
         Worker.default_config RunnerFixtures.start = (Ok tt, w')
       /\ Worker.posts w' = []
       /\ RunnerFacts.job_status (Worker.store w') (py "j1") = Some (py "completed").
Proof.
  destruct (retry_stage_skipped_without_audio RetryFacts.silent (py "j1")
              RunnerFixtures.job Worker.default_config RunnerFixtures.start
              eq_refl eq_refl) as (Hstage & _ & Hruns).
  split; [reflexivity|]. split; [reflexivity|]. split; [apply Hstage|].
  destruct (Pipeline.process RetryFacts.silent (py "j1") RunnerFixtures.job
              Worker.default_config RunnerFixtures.start) as [[result|e] w1] eqn:Hp.
  - apply (Hruns result w1 eq_refl). vm_compute. eauto.
  - vm_compute in Hp. discriminate.
Defined.
